(** * PointLab Image2Model: the run pipeline of [app.py] and the image stage
      pipeline of [preprocessing.py]

    A shallow embedding of the two Python modules.  Python values that end up
    in event dictionaries are a small sum type, event dictionaries are finite
    maps from keys to values, generators are computations that produce a
    trace of actions (yields and calls into the environment) and finish by
    falling through, by [return] or by an uncaught exception.

    Everything outside the interpreter (the file system, the image codec, the
    external tool chain) is a record of the answers it gives, so that a run is
    a function of that record. *)

From Stdlib Require Import ZArith QArith String Ascii List DecimalString SpecFloat.
From stdpp Require Import gmap strings list sorting.
Open Scope Z_scope.

(** ** Python values *)

(** The scalars that are passed around as arguments ([progress_start],
    [colmap_stage_name], ...).  Python is dynamically typed and [run_cmd] is
    once called with a string where a number is meant, so the type of the
    arguments is the sum of what is ever passed. *)
Inductive scalar :=
| SNone
| SBool (b : bool)
| SInt (z : Z)
| SStr (s : string).

(** A value stored in an event dictionary: a scalar, or a list of strings
    (the thumbnail references). *)
Inductive pyval :=
| VScalar (x : scalar)
| VList (l : list string).

#[global] Instance scalar_eq_dec : EqDecision scalar.
Proof. solve_decision. Defined.
#[global] Instance pyval_eq_dec : EqDecision pyval.
Proof. solve_decision. Defined.

Definition str (s : string) : pyval := VScalar (SStr s).
Definition int (z : Z) : pyval := VScalar (SInt z).

(** Truth value of a scalar in a condition ([if colmap_stage_name:], [x or y]). *)
Definition truthy (x : scalar) : bool :=
  match x with
  | SNone => false
  | SBool b => b
  | SInt z => negb (z =? 0)
  | SStr s => negb (String.eqb s "")
  end.

(** [x or y] *)
Definition py_or (x y : scalar) : scalar := if truthy x then x else y.

(** [str(z)] for an integer: decimal digits, with a sign when negative. *)
Definition str_of_Z (z : Z) : string := NilZero.string_of_int (Z.to_int z).
Definition str_of_nat (n : nat) : string := str_of_Z (Z.of_nat n).

(** How a scalar is rendered inside an f-string. *)
Definition format (x : scalar) : string :=
  match x with
  | SNone => "None"
  | SBool true => "True"
  | SBool false => "False"
  | SInt z => str_of_Z z
  | SStr s => s
  end.

(** ** Strings *)

Module Str.

(** [sep.join(l)] *)
Fixpoint join (sep : string) (l : list string) : string :=
  match l with
  | [] => ""
  | [s] => s
  | s :: l' => s +:+ sep +:+ join sep l'
  end.

Definition lower_ascii (a : ascii) : ascii :=
  let n := nat_of_ascii a in
  if (65 <=? n)%nat && (n <=? 90)%nat then ascii_of_nat (n + 32) else a.

(** [s.lower()], on the ASCII letters. *)
Fixpoint lower (s : string) : string :=
  match s with
  | EmptyString => EmptyString
  | String a s' => String (lower_ascii a) (lower s')
  end.

(** A string is the sequence of the bytes of a text in UTF-8.  The white
    space [str.strip()] removes is, on one byte: tab, line feed, vertical tab,
    form feed, carriage return, the four separators 28..31 and the space; *)
Definition is_space (a : ascii) : bool :=
  let n := nat_of_ascii a in
  ((9 <=? n)%nat && (n <=? 13)%nat) || ((28 <=? n)%nat && (n <=? 32)%nat).

(** on two bytes: U+0085 and U+00A0; *)
Definition is_space2 (a b : ascii) : bool :=
  let m := nat_of_ascii a in
  let n := nat_of_ascii b in
  (m =? 194)%nat && ((n =? 133)%nat || (n =? 160)%nat).

(** on three bytes: U+1680, U+2000 to U+200A, U+2028, U+2029, U+202F, U+205F
    and U+3000. *)
Definition is_space3 (a b c : ascii) : bool :=
  let m := nat_of_ascii a in
  let n := nat_of_ascii b in
  let k := nat_of_ascii c in
  ((m =? 225)%nat && (n =? 154)%nat && (k =? 128)%nat)
  || ((m =? 226)%nat && (n =? 128)%nat
      && (((128 <=? k)%nat && (k <=? 138)%nat)
          || (k =? 168)%nat || (k =? 169)%nat || (k =? 175)%nat))
  || ((m =? 226)%nat && (n =? 129)%nat && (k =? 159)%nat)
  || ((m =? 227)%nat && (n =? 128)%nat && (k =? 128)%nat).

Fixpoint lstrip (s : string) : string :=
  match s with
  | EmptyString => EmptyString
  | String a s1 =>
      if is_space a then lstrip s1
      else
        match s1 with
        | EmptyString => s
        | String b s2 =>
            if is_space2 a b then lstrip s2
            else
              match s2 with
              | EmptyString => s
              | String c s3 => if is_space3 a b c then lstrip s3 else s
              end
        end
  end.

(** [lstrip] on a reversed string, whose characters have their bytes in the
    reverse order. *)
Fixpoint lstrip_reversed (s : string) : string :=
  match s with
  | EmptyString => EmptyString
  | String a s1 =>
      if is_space a then lstrip_reversed s1
      else
        match s1 with
        | EmptyString => s
        | String b s2 =>
            if is_space2 b a then lstrip_reversed s2
            else
              match s2 with
              | EmptyString => s
              | String c s3 => if is_space3 c b a then lstrip_reversed s3 else s
              end
        end
  end.

(** [s.strip()] *)
Definition strip (s : string) : string :=
  String.rev (lstrip_reversed (String.rev (lstrip s))).

(** [s.rfind(c)]: the index of the last occurrence of [c]; [None] is
    Python's [-1]. *)
Fixpoint rfind (c : ascii) (s : string) : option nat :=
  match s with
  | EmptyString => None
  | String a s' =>
      match rfind c s' with
      | Some i => Some (S i)
      | None => if Ascii.eqb a c then Some 0%nat else None
      end
  end.

(** [s.startswith(p)] *)
Definition startswith (p s : string) : bool := String.prefix p s.

(** [x in (a, b, ...)] for strings *)
Definition mem (x : string) (l : list string) : bool :=
  existsb (String.eqb x) l.

End Str.

(** ** pathlib *)

Module Path.

(** The index at which the suffix of a file name starts: the last dot,
    unless it is the first or the last character of the name. *)
Definition suffix_index (name : string) : option nat :=
  match Str.rfind "." name with
  | Some i =>
      if (0 <? i)%nat && (i <? String.length name - 1)%nat then Some i else None
  | None => None
  end.

(** [PurePath(name).suffix] *)
Definition suffix (name : string) : string :=
  match suffix_index name with
  | Some i => String.substring i (String.length name - i) name
  | None => ""
  end.

(** [PurePath(name).stem] *)
Definition stem (name : string) : string :=
  match suffix_index name with
  | Some i => String.substring 0 i name
  | None => name
  end.

(** The name of [PurePath(name).with_suffix(ext)]; pathlib raises
    [ValueError] on an empty name. *)
Definition with_suffix (name ext : string) : option string :=
  if String.eqb name "" then None else Some (stem name +:+ ext).

(** [str(folder / name)] for a folder given by its string. *)
Definition child (folder name : string) : string := folder +:+ "/" +:+ name.

End Path.

(** ** Images *)

(** A PIL image: what [Image.open] returned, possibly rotated.  Pixels are
    not modelled; the term records how the image was obtained. *)
Inductive pil_image :=
| Opened (path : string)
| Rotated (angle : Z) (img : pil_image).

Inductive color_code :=
| COLOR_RGB2BGR | COLOR_BGR2YCrCb | COLOR_YCrCb2BGR | COLOR_BGR2GRAY.

Inductive morph_op := MORPH_OPEN | MORPH_CLOSE.

(** A numpy array as the OpenCV expression that computes it.  The filters are
    opaque; what the code depends on is the number of dimensions of each
    result. *)
Inductive ndarray :=
| NpArray (img : pil_image) (code : color_code)
| CvtColor (a : ndarray) (code : color_code)
| Resize (a : ndarray) (max_size : Z)
| Split (i : nat) (a : ndarray)
| Merge (c0 c1 c2 : ndarray)
| Clahe (a : ndarray)
| GaussianBlur (a : ndarray) (ksize : Z)
| AddWeighted (a : ndarray) (alpha : Q) (b : ndarray) (beta : Q)
| BilateralFilter (a : ndarray)
| Canny (a : ndarray)
| MedianBlur (a : ndarray) (ksize : Z)
| MorphologyEx (a : ndarray) (op : morph_op).

(** [a.ndim]: 2 for a single-channel image, 3 for a colour image. *)
Fixpoint ndim (a : ndarray) : nat :=
  match a with
  | NpArray _ code | CvtColor _ code =>
      match code with COLOR_BGR2GRAY => 2 | _ => 3 end
  | Split _ _ => 2
  | Merge _ _ _ => 3
  | Resize a _ | Clahe a | GaussianBlur a _ | AddWeighted a _ _ _
  | BilateralFilter a | Canny a | MedianBlur a _ | MorphologyEx a _ => ndim a
  end.

(** ** Effects *)

Abbreviation event := (gmap string pyval).

(** A dictionary display [{k1: v1, k2: v2, ...}]. *)
Definition dict (l : list (string * pyval)) : event := list_to_map l.
Global Arguments dict : simpl never.

(** What a computation does to the outside, in the order it does it. *)
Inductive action :=
| Yield (ev : event)                                  (* [yield ev] *)
| Mkdir (p : string)                                  (* [p.mkdir(parents=True, exist_ok=True)] *)
| Rmtree (p : string)                                 (* [shutil.rmtree(p)] *)
| Imwrite (p : string) (img : ndarray) (params : list Z) (* [cv2.imwrite(p, img, params)] *)
| Popen (cmd : list string).                          (* [subprocess.Popen(cmd, ...)] *)

(** How a block of statements ends. *)
Inductive outcome (A : Type) :=
| Continue (a : A)     (* control reaches the end of the block *)
| Return (v : scalar)  (* a [return] statement *)
| Raise (e : string).  (* an exception, with its [str(e)] *)
Arguments Continue {A} a.
Arguments Return {A} v.
Arguments Raise {A} e.

(** A computation: the actions performed and how it ended. *)
Definition py (A : Type) : Type := list action * outcome A.

(** The answer of a call into the environment that may raise. *)
Inductive result (A : Type) :=
| Ok (a : A)
| Error (e : string).
Arguments Ok {A} a.
Arguments Error {A} e.

Module Py.

Definition ret {A} (a : A) : py A := ([], Continue a).

Definition bind {A B} (m : py A) (f : A → py B) : py B :=
  match m with
  | (t, Continue a) => let '(t', o) := f a in (t ++ t', o)
  | (t, Return v) => (t, Return v)
  | (t, Raise e) => (t, Raise e)
  end.

Definition do (a : action) : py unit := ([a], Continue tt).

Definition yield (ev : event) : py unit := do (Yield ev).

Definition return_ {A} (v : scalar) : py A := ([], Return v).

Definition raise {A} (e : string) : py A := ([], Raise e).

Definition lift {A} (r : result A) : py A :=
  match r with
  | Ok a => ret a
  | Error e => raise e
  end.

(** A call that returns nothing but may raise. *)
Definition check (r : option string) : py unit :=
  match r with
  | None => ret tt
  | Some e => raise e
  end.

(** [try: m  except Exception as e: h e] *)
Definition try_except {A} (m : py A) (h : string → py A) : py A :=
  match m with
  | (t, Raise e) => let '(t', o) := h e in (t ++ t', o)
  | _ => m
  end.

(** [for x in l: body x] *)
Fixpoint for_each {A} (l : list A) (body : A → py unit) : py unit :=
  match l with
  | [] => ret tt
  | x :: l' => bind (body x) (λ _, for_each l' body)
  end.

(** [for ev in g: body ev] where [g] is a generator: [g] runs up to its next
    [yield], the body runs on the event, and [g] is resumed only if the body
    fell through.  The value [g] returns is dropped; an exception of [g]
    propagates. *)
Fixpoint for_gen_trace (t : list action) (o : outcome unit)
    (body : event → py unit) : py unit :=
  match t with
  | [] =>
      match o with
      | Raise e => raise e
      | _ => ret tt
      end
  | Yield ev :: t' => bind (body ev) (λ _, for_gen_trace t' o body)
  | a :: t' => bind (do a) (λ _, for_gen_trace t' o body)
  end.

Definition for_gen (g : py unit) (body : event → py unit) : py unit :=
  for_gen_trace g.1 g.2 body.

Definition trace {A} (m : py A) : list action := m.1.

End Py.

Global Arguments Py.bind : simpl never.

#[global] Instance py_ret : MRet py := @Py.ret.
#[global] Instance py_bind : MBind py := λ A B f m, Py.bind m f.

(** The events a computation yields, in order. *)
Definition events (t : list action) : list event :=
  omap (λ a, match a with Yield ev => Some ev | _ => None end) t.

(** The commands a computation launches, in order. *)
Definition launched (t : list action) : list (list string) :=
  omap (λ a, match a with Popen cmd => Some cmd | _ => None end) t.

(** The files a computation hands to [cv2.imwrite], in order. *)
Definition written (t : list action) : list string :=
  omap (λ a, match a with Imwrite p _ _ => Some p | _ => None end) t.

(** ** preprocessing.py *)

(** Pillow, numpy, OpenCV and the directory the stages are written to.  A
    call that can raise answers with the exception text. *)
Record codec := {
  pil_open : string → option string;
    (* [Image.open(path)]: [Some e] when it raises *)
  pil_tags : list (Z * string);
    (* [ExifTags.TAGS], in the order of its keys *)
  pil_getexif : pil_image → result (option (gmap Z Z));
    (* [img._getexif()] *)
  pil_rotate : Z → pil_image → option string;
    (* [img.rotate(angle, expand=True)]: [Some e] when it raises *)
  cv_decode : pil_image → option string;
    (* [cv2.cvtColor(np.array(img), cv2.COLOR_RGB2BGR)]: [Some e] when it raises *)
  cv_shape : ndarray → Z * Z;
    (* [img.shape[:2]] *)
  fs_mkdir : string → option string;
    (* [folder.mkdir(parents=True, exist_ok=True)]: [Some e] when it raises *)
  cv_imwrite : string → result bool;
    (* [cv2.imwrite(path, ...)]: whether the file was written, or an exception *)
}.

Definition IMWRITE_JPEG_QUALITY : Z := 1.

Module preprocessing.

(** The value of the loop variable after
    [for orientation in ExifTags.TAGS.keys(): if TAGS[orientation] == 'Orientation': break]:
    the first key of the tag, else the last key, else unbound. *)
Fixpoint orientation_key (tags : list (Z * string)) (bound : option Z) : option Z :=
  match tags with
  | [] => bound
  | (k, v) :: tags' =>
      if String.eqb v "Orientation" then Some k else orientation_key tags' (Some k)
  end.

Definition rotate (c : codec) (angle : Z) (img : pil_image) : py pil_image :=
  Py.check (pil_rotate c angle img);;
  mret (Rotated angle img).

(** Lines 12-23, the body of the [try]: the value of [img] when it ends. *)
Definition orient_image (c : codec) (img : pil_image) : py pil_image :=
  let orientation := orientation_key (pil_tags c) None in
  exif ← Py.lift (pil_getexif c img);
  match exif with
  | Some exif =>
      match orientation with
      | None => Py.raise "name 'orientation' is not defined"
      | Some orientation =>
          let orient := exif !! orientation in
          if decide (orient = Some 3) then rotate c 180 img
          else if decide (orient = Some 6) then rotate c 270 img
          else if decide (orient = Some 8) then rotate c 90 img
          else mret img
      end
  | None => mret img
  end.

(** [except Exception: pass] leaves [img] as it was: every statement of the
    [try] that can raise comes before the assignment it feeds. *)
Definition load_image (c : codec) (path : string) : py ndarray :=
  Py.check (pil_open c path);;
  let img := Opened path in
  img ← Py.try_except (orient_image c img) (λ _, mret img);
  Py.check (cv_decode c img);;
  mret (NpArray img COLOR_RGB2BGR).

(** [out_path.with_suffix(ext)] inside [save_image]. *)
Definition with_suffix (name ext : string) : py string :=
  match Path.with_suffix name ext with
  | Some name' => mret name'
  | None => Py.raise "PosixPath('.') has an empty name"
  end.

Definition save_image (c : codec) (folder name : string) (img : ndarray) : py unit :=
  Py.do (Mkdir folder);;
  Py.check (fs_mkdir c folder);;
  let ext := Str.lower (Path.suffix name) in
  if (ndim img =? 2)%nat then
    out_name ← (if negb (Str.mem ext [".png"]) then with_suffix name ".png"
                else mret name);
    let out_path := Path.child folder out_name in
    Py.do (Imwrite out_path img []);;
    _ ← Py.lift (cv_imwrite c out_path);
    mret tt
  else
    out_name ← (if negb (Str.mem ext [".jpg"; ".jpeg"]) then with_suffix name ".jpg"
                else mret name);
    let out_path := Path.child folder out_name in
    Py.do (Imwrite out_path img [IMWRITE_JPEG_QUALITY; 95]);;
    _ ← Py.lift (cv_imwrite c out_path);
    mret tt.

(** [in_path] is given by its folder and its file name. *)
Definition preprocess_and_save_all_stages (c : codec)
    (in_dir in_name out_root : string) (max_size : Z) : py unit :=
  img ← load_image c (Path.child in_dir in_name);
  let '(h, w) := cv_shape c img in
  let img := if max_size <? Z.max h w then Resize img max_size else img in
  let name := in_name in
  let stem := Path.stem in_name in
  let ycc := CvtColor img COLOR_BGR2YCrCb in
  let '(y, cr, cb) := (Split 0 ycc, Split 1 ycc, Split 2 ycc) in
  (* 1. CLAHE *)
  let y_eq := Clahe y in
  let img_eq := CvtColor (Merge y_eq cr cb) COLOR_YCrCb2BGR in
  save_image c (Path.child out_root "histogram_equalized") name img_eq;;
  (* 2. Gaussian blur *)
  let y_blur := GaussianBlur y_eq 5 in
  let img_blur := CvtColor (Merge y_blur cr cb) COLOR_YCrCb2BGR in
  save_image c (Path.child out_root "gaussian_blur") name img_blur;;
  (* 3. Unsharp mask *)
  let blurred := GaussianBlur y_blur 3 in
  let y_sharp := AddWeighted y_blur (13 # 10) blurred (- 3 # 10) in
  let y_sharp := BilateralFilter y_sharp in
  let img_sharp := CvtColor (Merge y_sharp cr cb) COLOR_YCrCb2BGR in
  save_image c (Path.child out_root "sharpened") name img_sharp;;
  (* 4. Edge detection *)
  let gray := CvtColor img_sharp COLOR_BGR2GRAY in
  let edges := Canny gray in
  save_image c (Path.child out_root "edges") (stem +:+ "_edges.png") edges;;
  (* 5. Median filter *)
  let median := MedianBlur gray 5 in
  save_image c (Path.child out_root "median_filtered") (stem +:+ "_median.png") median;;
  (* 6. Morphological cleaning *)
  let morph_open := MorphologyEx median MORPH_OPEN in
  let morph_clean := MorphologyEx morph_open MORPH_CLOSE in
  save_image c (Path.child out_root "morphology") (stem +:+ "_morph.png") morph_clean;;
  (* 7. Final processed *)
  let y_final := AddWeighted y_sharp (75 # 100) morph_clean (25 # 100) in
  let final_bgr := CvtColor (Merge y_final cr cb) COLOR_YCrCb2BGR in
  save_image c (Path.child out_root "final_processed") name final_bgr.

End preprocessing.

(** A codec on which nothing fails and no image carries EXIF data. *)
Definition plain_codec : codec := {|
  pil_open := λ _, None;
  pil_tags := [(271, "Make"); (274, "Orientation"); (305, "Software")];
  pil_getexif := λ _, Ok None;
  pil_rotate := λ _ _, None;
  cv_decode := λ _, None;
  cv_shape := λ _, (480, 640);
  fs_mkdir := λ _, None;
  cv_imwrite := λ _, Ok true;
|}.

(** ** app.py *)

(** An external process as [run_cmd] observes it: the strings returned by the
    successive [proc.stdout.readline()] calls before the one that ends the
    loop (an empty string is an end of file seen while the process is still
    running), and the exit status returned by [proc.wait()]. *)
Record process := {
  reads : list string;
  returncode : Z;
}.

(** The environment of one [/stream/<run_id>] request.  The directories are
    shared with the external tool and with other requests, so what the
    generator finds in them is an answer of the environment. *)
Record world := {
  base_dir : string;
    (* [BASE_DIR] *)
  run_id : string;
  images_iterdir : list string;
    (* names yielded by [images_dir.iterdir()] *)
  the_codec : codec;
  listdir : string → option (list string);
    (* once preprocessing is over: [None] when the directory does not exist,
       else the names of its entries *)
  popen : list string → process;
    (* the process started by [subprocess.Popen(cmd, ...)] *)
  sparse_iterdir : list (string * bool);
    (* after the mapper: the entries yielded by [sparse_dir.iterdir()], each
       with its [is_dir()], in the order they are yielded *)
  fused_ply_exists : bool;
    (* after the fusion: [fused_ply.exists()] *)
}.

Definition COLMAP_EXEC : string := "colmap".

Definition PREPROCESS_STAGES : list (string * string) :=
  [ ("Original Image", "images");
    ("Histogram Equalized", "histogram_equalized");
    ("Gaussian Blur", "gaussian_blur");
    ("Sharpened", "sharpened");
    ("Edges (Canny)", "edges");
    ("Median Filtered", "median_filtered");
    ("Morphological Cleaned", "morphology");
    ("Final Processed", "final_processed") ].

Definition COLMAP_STAGES : list string :=
  [ "Feature Extraction"; "Matching"; "Sparse Mapping"; "Model Conversion";
    "Undistortion"; "Dense & Fusion" ].

(** [COLMAP_STAGES[i]] *)
Definition colmap_stage (i : nat) : scalar := SStr (nth i COLMAP_STAGES "").

(** [sorted(l)] on names of one directory. *)
Definition sorted (l : list string) : list string := merge_sort String.le l.

(** [enumerate(l, start)] *)
Fixpoint enumerate {A} (start : nat) (l : list A) : list (nat * A) :=
  match l with
  | [] => []
  | x :: l' => (start, x) :: enumerate (S start) l'
  end.

(** [ev.get(key, default)] *)
Definition get (ev : event) (key : string) (default : pyval) : pyval :=
  from_option id default (ev !! key).

(** [ev.get("type") == "error"] *)
Definition type_is_error (ev : event) : bool :=
  bool_decide (ev !! "type" = Some (str "error")).

(** [ev.get("stage", "").startswith("error")]; only a string has the method. *)
Definition stage_startswith_error (ev : event) : py bool :=
  match get ev "stage" (str "") with
  | VScalar (SStr s) => mret (Str.startswith "error" s)
  | _ => Py.raise "object has no attribute 'startswith'"
  end.

(** [int(2 + 18 * (i / total_images))].  Python evaluates the quotient, the
    product and the sum in binary64 and truncates; here the quotient is the
    exact rational, so the value is the integer part of [2 + 18 i / total].
    The binary64 evaluation is [preprocess_progress_binary64] below; the two
    are compared in [binary64_agrees]. *)
Definition preprocess_progress (i total_images : nat) : Z :=
  2 + (18 * Z.of_nat i) / Z.of_nat total_images.

(** [float(z)] for an integer below [2^53], as a binary64 number. *)
Definition binary64_of_Z (z : Z) : spec_float := binary_normalize 53 1024 z 0 false.

(** [int(x)] for a binary64 number: truncation towards zero; [None] stands for
    the exception Python raises on an infinity or a NaN. *)
Definition int_of_binary64 (x : spec_float) : option Z :=
  match x with
  | S754_zero _ => Some 0
  | S754_finite s m e =>
      let v := if 0 <=? e then Z.pos m * 2 ^ e else Z.pos m / 2 ^ (- e) in
      Some (if s then - v else v)
  | S754_infinity _ | S754_nan => None
  end.

(** [int(2 + 18 * (i / total_images))] with every operation rounded to
    binary64, to nearest even. *)
Definition preprocess_progress_binary64 (i total_images : nat) : option Z :=
  let quotient :=
    SFdiv 53 1024 (binary64_of_Z (Z.of_nat i)) (binary64_of_Z (Z.of_nat total_images)) in
  int_of_binary64
    (SFadd 53 1024 (binary64_of_Z 2) (SFmul 53 1024 (binary64_of_Z 18) quotient)).

Section Run.

Variable w : world.

Definition WORK_DIR : string := Path.child (base_dir w) "runs".
Definition run_dir : string := Path.child WORK_DIR (run_id w).
Definition images_dir : string := Path.child run_dir "images".
Definition out_root : string := Path.child run_dir "out".
Definition db_dir : string := Path.child out_root "database".
Definition sparse_dir : string := Path.child out_root "sparse".
Definition dense_dir : string := Path.child out_root "dense".
Definition image_path_for_colmap : string := Path.child out_root "final_processed".

(** [p.exists()] for a directory, once preprocessing is over. *)
Definition dir_exists (p : string) : bool := bool_decide (is_Some (listdir w p)).

(** [(sparse_dir / name).exists()] after the mapper. *)
Definition sparse_exists (name : string) : bool :=
  existsb (λ e, String.eqb e.1 name) (sparse_iterdir w).

Definition run_cmd (cmd : list string) (progress_start progress_end : scalar)
    (colmap_stage_name : scalar) : py unit :=
  Py.yield (dict [("type", str "status");
                  ("message", str ("Running: " +:+ Str.join " " cmd));
                  ("progress", VScalar progress_start)]);;
  Py.do (Popen cmd);;
  let proc := popen w cmd in
  Py.for_each (reads proc) (λ line,
    if String.eqb line "" then mret tt
    else Py.yield (dict [("type", str "log");
                         ("message", str (Str.strip line));
                         ("progress", VScalar progress_start)]));;
  let rc := returncode proc in
  if negb (rc =? 0) then
    Py.yield (dict [("type", str "error");
                    ("message", str ("Command " +:+ Str.join " " cmd +:+
                                     " exited with code " +:+ str_of_Z rc));
                    ("progress", VScalar progress_start)]);;
    Py.return_ (SBool false)
  else
    (if truthy colmap_stage_name then
       Py.yield (dict [("type", str "stage_done");
                       ("group", str "colmap");
                       ("stage_name", VScalar colmap_stage_name);
                       ("progress", VScalar progress_end)])
     else mret tt);;
    Py.yield (dict [("type", str "status");
                    ("message", str (format (py_or colmap_stage_name (SStr "command"))
                                     +:+ " finished"));
                    ("progress", VScalar progress_end)]);;
    Py.return_ (SBool true).

(** [for ev in run_cmd(...): yield ev; if ev.get("type") == "error": return] *)
Definition forward (g : py unit) : py unit :=
  Py.for_gen g (λ ev,
    Py.yield ev;;
    if type_is_error ev then Py.return_ SNone else mret tt).

(** [for ev in run_cmd(...): yield ev; if ev.get("stage","").startswith("error"): return] *)
Definition forward_stage (g : py unit) : py unit :=
  Py.for_gen g (λ ev,
    Py.yield ev;;
    b ← stage_startswith_error ev;
    if b : bool then Py.return_ SNone else mret tt).

Definition is_image (name : string) : bool :=
  Str.mem (Str.lower (Path.suffix name)) [".jpg"; ".jpeg"; ".png"].

Definition image_paths : list string :=
  sorted (List.filter is_image (images_iterdir w)).

Definition total_images : nat := length image_paths.

(** Lines 197-208: the loop over the images. *)
Definition preprocess_images : py unit :=
  Py.for_each (enumerate 1 image_paths) (λ '(i, img_name),
    Py.try_except
      (preprocessing.preprocess_and_save_all_stages
         (the_codec w) images_dir img_name out_root 2048;;
       Py.yield (dict [("type", str "preprocess_image");
                       ("message", str ("Preprocessed " +:+ img_name +:+ " (" +:+
                                        str_of_nat i +:+ "/" +:+
                                        str_of_nat total_images +:+ ")"));
                       ("progress", int (preprocess_progress i total_images));
                       ("image", str ("/runs/" +:+ run_id w +:+
                                      "/out/final_processed/" +:+ img_name))]))
      (λ e,
        Py.yield (dict [("type", str "error");
                        ("message", str ("Preprocessing failed: " +:+ e));
                        ("progress", int 0)]);;
        Py.return_ SNone)).

(** Lines 213-235: one thumbnail event per preprocessing stage. *)
Definition stage_thumbnails : py unit :=
  Py.for_each PREPROCESS_STAGES (λ '(label, folder),
    let src_dir :=
      if String.eqb folder "images" then Path.child run_dir "images"
      else Path.child out_root folder in
    let thumbs :=
      match listdir w src_dir with
      | Some entries =>
          (λ p, if String.eqb folder "images"
                then "/runs/" +:+ run_id w +:+ "/images/" +:+ p
                else "/runs/" +:+ run_id w +:+ "/out/" +:+ folder +:+ "/" +:+ p)
            <$> take 200 (sorted entries)
      | None => []
      end in
    Py.yield (dict [("type", str "stage_done");
                    ("group", str "preprocessing");
                    ("stage_name", str label);
                    ("stage_key", str folder);
                    ("progress", int 20);
                    ("thumbs", VList thumbs)])).

(** Lines 244-247: the three scratch directories are recreated. *)
Definition reset_workspace : py unit :=
  Py.for_each [db_dir; sparse_dir; dense_dir] (λ p,
    (if dir_exists p then Py.do (Rmtree p) else mret tt);;
    Py.do (Mkdir p)).

Definition fe_cmd : list string :=
  [COLMAP_EXEC; "feature_extractor";
   "--database_path"; Path.child db_dir "database.db";
   "--image_path"; image_path_for_colmap].

Definition em_cmd : list string :=
  [COLMAP_EXEC; "exhaustive_matcher";
   "--database_path"; Path.child db_dir "database.db"].

Definition map_cmd : list string :=
  [COLMAP_EXEC; "mapper";
   "--database_path"; Path.child db_dir "database.db";
   "--image_path"; image_path_for_colmap;
   "--output_path"; sparse_dir].

Definition converter_cmd (model_index : string) : list string :=
  [COLMAP_EXEC; "model_converter";
   "--input_path"; Path.child sparse_dir model_index;
   "--output_path"; Path.child sparse_dir "0_txt";
   "--output_type"; "TXT"].

Definition undist_cmd (model_index : string) : list string :=
  [COLMAP_EXEC; "image_undistorter";
   "--image_path"; image_path_for_colmap;
   "--input_path"; Path.child sparse_dir model_index;
   "--output_path"; dense_dir;
   "--output_type"; "COLMAP"].

Definition pm_cmd : list string :=
  [COLMAP_EXEC; "patch_match_stereo";
   "--workspace_path"; dense_dir;
   "--workspace_format"; "COLMAP";
   "--PatchMatchStereo.max_image_size"; "1600";
   "--PatchMatchStereo.num_iterations"; "3";
   "--PatchMatchStereo.num_samples"; "10";
   "--PatchMatchStereo.geom_consistency"; "true"].

Definition fuse_cmd : list string :=
  [COLMAP_EXEC; "stereo_fusion";
   "--workspace_path"; dense_dir;
   "--workspace_format"; "COLMAP";
   "--input_type"; "geometric";
   "--output_path"; Path.child dense_dir "fused.ply"].

(** Lines 290-300: the first look for the model, by the name of its
    directory under [sparse_dir]. *)
Definition find_model_index : py unit :=
  let top_models := List.filter snd (sparse_iterdir w) in
  let model_index :=
    match top_models with
    | p :: _ => p.1
    | [] => "0"
    end in
  if negb (sparse_exists model_index) then
    Py.yield (dict [("type", str "error");
                    ("message", str "No sparse model found after mapper");
                    ("progress", int 55)]);;
    Py.return_ SNone
  else mret tt.

(** The loop of lines 305-309: the first entry that is a directory. *)
Fixpoint first_dir (top_models : list (string * bool)) : option string :=
  match top_models with
  | [] => None
  | sub :: rest => if sub.2 then Some sub.1 else first_dir rest
  end.

(** Lines 303-315: the second look, whose result is the one used. *)
Definition rescan_model_index : py string :=
  let top_models := sparse_iterdir w in
  let model_index := first_dir top_models in
  if from_option (λ sub, negb (sparse_exists sub)) true model_index then
    (* in some colmap versions output is ~/sparse/0 *)
    let model_index := "0" in
    if negb (sparse_exists model_index) then
      Py.yield (dict [("stage", str "error");
                      ("message", str "No sparse model found after mapper");
                      ("progress", int 55)]);;
      Py.return_ SNone
    else mret model_index
  else mret (default "" model_index).

Definition process_generator : py unit :=
  Py.yield (dict [("type", str "status"); ("message", str "Run queued");
                  ("progress", int 0)]);;
  Py.yield (dict [("type", str "status");
                  ("message", str "Starting preprocessing...");
                  ("progress", int 2)]);;
  if (total_images =? 0)%nat then
    Py.yield (dict [("type", str "error"); ("message", str "No images found");
                    ("progress", int 0)]);;
    Py.return_ SNone
  else
  preprocess_images;;
  Py.yield (dict [("type", str "status"); ("message", str "Preprocessing complete");
                  ("progress", int 20)]);;
  stage_thumbnails;;
  Py.yield (dict [("type", str "status");
                  ("message", str "Preparing COLMAP workspace...");
                  ("progress", int 22)]);;
  reset_workspace;;
  if negb (dir_exists image_path_for_colmap) then
    Py.yield (dict [("type", str "error");
                    ("message", str "final_processed folder missing");
                    ("progress", int 0)]);;
    Py.return_ SNone
  else
  (* 1: features *)
  forward (run_cmd fe_cmd (SInt 22) (SInt 30) (colmap_stage 0));;
  (* 2: matching *)
  forward (run_cmd em_cmd (SInt 30) (SInt 40) (colmap_stage 1));;
  (* 3: mapper *)
  forward (run_cmd map_cmd (SInt 40) (SInt 55) (colmap_stage 2));;
  find_model_index;;
  (* 4: model_converter *)
  model_index ← rescan_model_index;
  Py.do (Mkdir (Path.child sparse_dir "0_txt"));;
  forward_stage (run_cmd (converter_cmd model_index)
                   (SStr "model_converter") (SInt 55) (SInt 58));;
  (* 5: image_undistorter *)
  forward (run_cmd (undist_cmd model_index) (SInt 58) (SInt 65) (colmap_stage 4));;
  (* 6: patch_match_stereo *)
  forward (run_cmd pm_cmd (SInt 65) (SInt 85) (colmap_stage 5));;
  (* 7: stereo_fusion *)
  forward (run_cmd fuse_cmd (SInt 85) (SInt 95) (SStr "Fusion (dense)"));;
  if fused_ply_exists w then
    Py.yield (dict [("type", str "done");
                    ("message", str "Reconstruction complete");
                    ("progress", int 100);
                    ("fused_ply", str ("/runs/" +:+ run_id w +:+
                                       "/out/dense/fused.ply"))])
  else
    Py.yield (dict [("type", str "error");
                    ("message", str "fused.ply not found after fusion");
                    ("progress", int 95)]);;
    Py.return_ SNone.

End Run.

(** [serve_run_out] (lines 147-153): the file the route
    [/runs/<run_id>/out/<path:filename>] looks for and serves. *)
Definition serve_run_out (w : world) (run_id filename : string) : string :=
  let root := Path.child (Path.child (WORK_DIR w) run_id) "out" in
  Path.child root filename.

(** The event stream of a run, and the commands it launches. *)
Definition stream (w : world) : list event := events (Py.trace (process_generator w)).
Definition commands (w : world) : list (list string) :=
  launched (Py.trace (process_generator w)).

(** * Vocabulary of the properties *)

(** ** The files of the image stage pipeline *)

(** The [cv2.imwrite] calls of a trace: the path, the number of dimensions of
    the image and the encoder parameters. *)
Definition imwrites (t : list action) : list (string * nat * list Z) :=
  omap (λ a, match a with
             | Imwrite p img params => Some (p, ndim img, params)
             | _ => None
             end) t.

(** The naming rule in words: a single-channel image goes to a [.png] name, a
    colour image to a [.jpg] or [.jpeg] name; a name with another extension
    gets the extension replaced. *)
Definition saved_name (name : string) (nd : nat) : string :=
  let ext := Str.lower (Path.suffix name) in
  if (nd =? 2)%nat then
    if Str.mem ext [".png"] then name else Path.stem name +:+ ".png"
  else
    if Str.mem ext [".jpg"; ".jpeg"] then name else Path.stem name +:+ ".jpg".

(** No encoder parameter for PNG, quality 95 for JPEG. *)
Definition saved_params (nd : nat) : list Z :=
  if (nd =? 2)%nat then [] else [IMWRITE_JPEG_QUALITY; 95].

(** Only directories are made and images written. *)
Definition file_action (a : action) : Prop :=
  match a with
  | Mkdir _ | Imwrite _ _ _ => True
  | _ => False
  end.

(** A computation that makes at most the writes [ws], all of them when it
    falls through, and that never executes a [return]. *)
Definition stage_writes {A} (m : py A) (ws : list (string * nat * list Z)) : Prop :=
  imwrites m.1 `prefix_of` ws
  ∧ Forall file_action m.1
  ∧ (∀ v, m.2 ≠ Return v)
  ∧ (∀ a, m.2 = Continue a → imwrites m.1 = ws).

(** The seven files written for one image, in the order of the stages. *)
Definition stage_outputs (out_root name : string) : list (string * nat * list Z) :=
  let colour folder :=
    (Path.child (Path.child out_root folder) (saved_name name 3), 3%nat,
     [IMWRITE_JPEG_QUALITY; 95]) in
  let single folder tail :=
    (Path.child (Path.child out_root folder) (Path.stem name +:+ tail), 2%nat,
     @nil Z) in
  [ colour "histogram_equalized"; colour "gaussian_blur"; colour "sharpened";
    single "edges" "_edges.png"; single "median_filtered" "_median.png";
    single "morphology" "_morph.png"; colour "final_processed" ].

(** ** Events *)

Definition status_event (message : string) (progress : scalar) : event :=
  dict [("type", str "status"); ("message", str message);
        ("progress", VScalar progress)].

Definition log_event (message : string) (progress : scalar) : event :=
  dict [("type", str "log"); ("message", str message);
        ("progress", VScalar progress)].

Definition error_event (message : string) (progress : scalar) : event :=
  dict [("type", str "error"); ("message", str message);
        ("progress", VScalar progress)].

Definition colmap_stage_done (stage_name progress : scalar) : event :=
  dict [("type", str "stage_done"); ("group", str "colmap");
        ("stage_name", VScalar stage_name); ("progress", VScalar progress)].

(** The events of a given type in a stream. *)
Definition of_type (ty : string) (l : list event) : list event :=
  List.filter (λ ev, bool_decide (ev !! "type" = Some (str ty))) l.

(** The progress of an event when it is a number. *)
Definition numeric_progress (ev : event) : option Z :=
  match ev !! "progress" with
  | Some (VScalar (SInt z)) => Some z
  | _ => None
  end.

(** An error event that carries progress 0. *)
Definition reset_error (ev : event) : bool :=
  type_is_error ev && bool_decide (ev !! "progress" = Some (int 0)).

(** The numeric progress values of a stream, error events at 0 set aside. *)
Definition progress_values (s : list event) : list Z :=
  omap numeric_progress (List.filter (λ ev, negb (reset_error ev)) s).

(** The progress values of [s] are non-decreasing and lie between [lo] and
    [hi]; every number that is a progress lies between 0 and 100. *)
Definition mono (lo hi : Z) (s : list event) : Prop :=
  lo ≤ hi
  ∧ StronglySorted Z.le (progress_values s)
  ∧ Forall (λ z, lo ≤ z ≤ hi) (progress_values s)
  ∧ Forall (λ ev, ∀ z, numeric_progress ev = Some z → 0 ≤ z ≤ 100) s.

(** The exact and the binary64 value of the per-image progress agree for
    every index [1 ≤ i ≤ n] of every run of at most [bound] images. *)
Definition binary64_agrees_upto (bound : nat) : bool :=
  forallb (λ n,
    forallb (λ i, bool_decide (preprocess_progress_binary64 i n
                               = Some (preprocess_progress i n)))
      (seq 1 n))
    (seq 1 bound).

(** ** One external command *)

(** The tool a command line invokes: its second word. *)
Definition subcommand (cmd : list string) : string := nth 1 cmd "".

(** The exit status of a command of the run. *)
Definition exit_code (w : world) (cmd : list string) : Z := returncode (popen w cmd).

(** The output lines of a process that [run_cmd] turns into log events. *)
Definition captured_lines (p : process) : list string :=
  List.filter (λ line, negb (String.eqb line "")) (reads p).

(** The events that close an invocation, by exit status. *)
Definition closing_events (cmd : list string) (rc : Z)
    (progress_start progress_end stage_name : scalar) : list event :=
  if rc =? 0 then
    (if truthy stage_name then [colmap_stage_done stage_name progress_end] else [])
    ++ [status_event (format (py_or stage_name (SStr "command")) +:+ " finished")
          progress_end]
  else
    [error_event ("Command " +:+ Str.join " " cmd +:+ " exited with code "
                  +:+ str_of_Z rc) progress_start].

(** The trace of one invocation before its closing events. *)
Definition running_trace (w : world) (cmd : list string) (progress_start : scalar)
    : list action :=
  Yield (status_event ("Running: " +:+ Str.join " " cmd) progress_start)
  :: Popen cmd
  :: (Yield <$> ((λ line, log_event (Str.strip line) progress_start)
                   <$> captured_lines (popen w cmd))).

(** The body of the forwarding loop. *)
Definition forward_body (ev : event) : py unit :=
  Py.yield ev;;
  if type_is_error ev then Py.return_ SNone else mret tt.

(** The body of the loop that forwards the events of the model converter. *)
Definition forward_stage_body (ev : event) : py unit :=
  Py.yield ev;;
  b ← stage_startswith_error ev;
  if b : bool then Py.return_ SNone else mret tt.

(** ** One image of the run *)

(** The image stage pipeline on one image of the run. *)
Definition image_result (w : world) (name : string) : py unit :=
  preprocessing.preprocess_and_save_all_stages
    (the_codec w) (images_dir w) name (out_root w) 2048.

(** The pipeline ends without an exception on this image. *)
Definition preprocesses (w : world) (name : string) : bool :=
  match (image_result w name).2 with
  | Continue _ => true
  | _ => false
  end.

(** Every image of the run preprocesses without an exception. *)
Definition images_ok (w : world) : Prop :=
  ∀ name, name ∈ image_paths w → preprocesses w name = true.

(** The per-image event of the [i]-th image. *)
Definition preprocess_event (w : world) (i : nat) (name : string) : event :=
  dict [("type", str "preprocess_image");
        ("message", str ("Preprocessed " +:+ name +:+ " (" +:+ str_of_nat i +:+ "/" +:+
                         str_of_nat (total_images w) +:+ ")"));
        ("progress", int (preprocess_progress i (total_images w)));
        ("image", str ("/runs/" +:+ run_id w +:+ "/out/final_processed/" +:+ name))].

Definition preprocessing_failed (e : string) : event :=
  error_event ("Preprocessing failed: " +:+ e) (SInt 0).

(** What the loop does for images that all preprocess. *)
Definition images_trace (w : world) (start : nat) (l : list string) : list action :=
  concat ((λ p, (image_result w p.2).1 ++ [Yield (preprocess_event w p.1 p.2)])
            <$> enumerate start l).

(** The body of the loop of [preprocess_images]. *)
Definition image_body (w : world) (p : nat * string) : py unit :=
  Py.try_except
    (image_result w p.2;; Py.yield (preprocess_event w p.1 p.2))
    (λ e, Py.yield (preprocessing_failed e);; Py.return_ SNone).

(** ** The parts of a run *)

Definition run_queued : event := status_event "Run queued" (SInt 0).
Definition starting_preprocessing : event :=
  status_event "Starting preprocessing..." (SInt 2).
Definition no_images_found : event := error_event "No images found" (SInt 0).
Definition preprocessing_complete : event :=
  status_event "Preprocessing complete" (SInt 20).
Definition preparing_workspace : event :=
  status_event "Preparing COLMAP workspace..." (SInt 22).
Definition final_processed_missing : event :=
  error_event "final_processed folder missing" (SInt 0).
Definition no_sparse_model : event :=
  error_event "No sparse model found after mapper" (SInt 55).
Definition fused_ply_missing : event :=
  error_event "fused.ply not found after fusion" (SInt 95).
Definition reconstruction_complete (w : world) : event :=
  dict [("type", str "done"); ("message", str "Reconstruction complete");
        ("progress", int 100);
        ("fused_ply", str ("/runs/" +:+ run_id w +:+ "/out/dense/fused.ply"))].

(** The references listed for a stage folder: at most 200 entries, sorted. *)
Definition thumbs (w : world) (folder : string) : list string :=
  let src_dir :=
    if String.eqb folder "images" then Path.child (run_dir w) "images"
    else Path.child (out_root w) folder in
  match listdir w src_dir with
  | Some entries =>
      (λ p, if String.eqb folder "images"
            then "/runs/" +:+ run_id w +:+ "/images/" +:+ p
            else "/runs/" +:+ run_id w +:+ "/out/" +:+ folder +:+ "/" +:+ p)
        <$> take 200 (sorted entries)
  | None => []
  end.

Definition thumbnail_event (w : world) (stage : string * string) : event :=
  dict [("type", str "stage_done"); ("group", str "preprocessing");
        ("stage_name", str stage.1); ("stage_key", str stage.2);
        ("progress", int 20); ("thumbs", VList (thumbs w stage.2))].

(** The first subdirectory of a listing, in the order of the listing. *)
Definition first_subdirectory (entries : list (string * bool)) : option string :=
  fst <$> head (List.filter snd entries).

(** The model directory the two scans of [sparse_dir] agree on. *)
Definition discovered (w : world) : option string :=
  match first_dir (sparse_iterdir w) with
  | Some sub => Some sub
  | None => if sparse_exists w "0" then Some "0" else None
  end.

(** The trace up to the check of [final_processed], when every image
    preprocesses. *)
Definition preprocessed (w : world) : list action :=
  [Yield run_queued; Yield starting_preprocessing]
  ++ images_trace w 1 (image_paths w)
  ++ [Yield preprocessing_complete]
  ++ (stage_thumbnails w).1
  ++ [Yield preparing_workspace]
  ++ (reset_workspace w).1.

Definition feature_extraction (w : world) : list action :=
  (run_cmd w (fe_cmd w) (SInt 22) (SInt 30) (colmap_stage 0)).1.
Definition matching (w : world) : list action :=
  (run_cmd w (em_cmd w) (SInt 30) (SInt 40) (colmap_stage 1)).1.
Definition sparse_mapping (w : world) : list action :=
  (run_cmd w (map_cmd w) (SInt 40) (SInt 55) (colmap_stage 2)).1.
Definition model_conversion (w : world) (model_index : string) : list action :=
  Mkdir (Path.child (sparse_dir w) "0_txt")
  :: (run_cmd w (converter_cmd w model_index)
        (SStr "model_converter") (SInt 55) (SInt 58)).1.
Definition undistortion (w : world) (model_index : string) : list action :=
  (run_cmd w (undist_cmd w model_index) (SInt 58) (SInt 65) (colmap_stage 4)).1.
Definition dense_stereo (w : world) : list action :=
  (run_cmd w (pm_cmd w) (SInt 65) (SInt 85) (colmap_stage 5)).1.
Definition fusion (w : world) : list action :=
  (run_cmd w (fuse_cmd w) (SInt 85) (SInt 95) (SStr "Fusion (dense)")).1.

(** The trace through the sparse mapping, when the three commands exit with 0. *)
Definition mapped (w : world) : list action :=
  preprocessed w ++ feature_extraction w ++ matching w ++ sparse_mapping w.

(** The trace through the dense stereo stage. *)
Definition densified (w : world) (model_index : string) : list action :=
  mapped w ++ model_conversion w model_index ++ undistortion w model_index
  ++ dense_stereo w.

(** A computation after the actions [t]. *)
Definition prepend {A} (t : list action) (m : py A) : py A := (t ++ m.1, m.2).

(** The ways a run can go. *)
Inductive run_shape (w : world) : py unit → Prop :=
| shape_no_images :
    total_images w = 0%nat →
    run_shape w ([Yield run_queued; Yield starting_preprocessing;
                  Yield no_images_found], Return SNone)
| shape_image_fails l1 name l2 e :
    image_paths w = l1 ++ name :: l2 →
    (∀ n, n ∈ l1 → preprocesses w n = true) →
    (image_result w name).2 = Raise e →
    run_shape w ([Yield run_queued; Yield starting_preprocessing]
                 ++ images_trace w 1 l1 ++ (image_result w name).1
                 ++ [Yield (preprocessing_failed e)], Return SNone)
| shape_final_missing :
    total_images w ≠ 0%nat → images_ok w →
    dir_exists w (image_path_for_colmap w) = false →
    run_shape w (preprocessed w ++ [Yield final_processed_missing], Return SNone)
| shape_features_fail :
    total_images w ≠ 0%nat → images_ok w →
    dir_exists w (image_path_for_colmap w) = true →
    exit_code w (fe_cmd w) ≠ 0 →
    run_shape w (preprocessed w ++ feature_extraction w, Return SNone)
| shape_matching_fails :
    total_images w ≠ 0%nat → images_ok w →
    dir_exists w (image_path_for_colmap w) = true →
    exit_code w (fe_cmd w) = 0 →
    exit_code w (em_cmd w) ≠ 0 →
    run_shape w (preprocessed w ++ feature_extraction w ++ matching w, Return SNone)
| shape_mapping_fails :
    total_images w ≠ 0%nat → images_ok w →
    dir_exists w (image_path_for_colmap w) = true →
    exit_code w (fe_cmd w) = 0 →
    exit_code w (em_cmd w) = 0 →
    exit_code w (map_cmd w) ≠ 0 →
    run_shape w (mapped w, Return SNone)
| shape_no_model :
    total_images w ≠ 0%nat → images_ok w →
    dir_exists w (image_path_for_colmap w) = true →
    exit_code w (fe_cmd w) = 0 →
    exit_code w (em_cmd w) = 0 →
    exit_code w (map_cmd w) = 0 →
    discovered w = None →
    run_shape w (mapped w ++ [Yield no_sparse_model], Return SNone)
| shape_undistortion_fails model_index :
    total_images w ≠ 0%nat → images_ok w →
    dir_exists w (image_path_for_colmap w) = true →
    exit_code w (fe_cmd w) = 0 →
    exit_code w (em_cmd w) = 0 →
    exit_code w (map_cmd w) = 0 →
    discovered w = Some model_index →
    exit_code w (undist_cmd w model_index) ≠ 0 →
    run_shape w (mapped w ++ model_conversion w model_index
                 ++ undistortion w model_index, Return SNone)
| shape_dense_fails model_index :
    total_images w ≠ 0%nat → images_ok w →
    dir_exists w (image_path_for_colmap w) = true →
    exit_code w (fe_cmd w) = 0 →
    exit_code w (em_cmd w) = 0 →
    exit_code w (map_cmd w) = 0 →
    discovered w = Some model_index →
    exit_code w (undist_cmd w model_index) = 0 →
    exit_code w (pm_cmd w) ≠ 0 →
    run_shape w (densified w model_index, Return SNone)
| shape_fusion_fails model_index :
    total_images w ≠ 0%nat → images_ok w →
    dir_exists w (image_path_for_colmap w) = true →
    exit_code w (fe_cmd w) = 0 →
    exit_code w (em_cmd w) = 0 →
    exit_code w (map_cmd w) = 0 →
    discovered w = Some model_index →
    exit_code w (undist_cmd w model_index) = 0 →
    exit_code w (pm_cmd w) = 0 →
    exit_code w (fuse_cmd w) ≠ 0 →
    run_shape w (densified w model_index ++ fusion w, Return SNone)
| shape_fused_missing model_index :
    total_images w ≠ 0%nat → images_ok w →
    dir_exists w (image_path_for_colmap w) = true →
    exit_code w (fe_cmd w) = 0 →
    exit_code w (em_cmd w) = 0 →
    exit_code w (map_cmd w) = 0 →
    discovered w = Some model_index →
    exit_code w (undist_cmd w model_index) = 0 →
    exit_code w (pm_cmd w) = 0 →
    exit_code w (fuse_cmd w) = 0 →
    fused_ply_exists w = false →
    run_shape w (densified w model_index ++ fusion w ++ [Yield fused_ply_missing],
                 Return SNone)
| shape_done model_index :
    total_images w ≠ 0%nat → images_ok w →
    dir_exists w (image_path_for_colmap w) = true →
    exit_code w (fe_cmd w) = 0 →
    exit_code w (em_cmd w) = 0 →
    exit_code w (map_cmd w) = 0 →
    discovered w = Some model_index →
    exit_code w (undist_cmd w model_index) = 0 →
    exit_code w (pm_cmd w) = 0 →
    exit_code w (fuse_cmd w) = 0 →
    fused_ply_exists w = true →
    run_shape w (densified w model_index ++ fusion w
                 ++ [Yield (reconstruction_complete w)], Continue tt).

(** ** The claims that do not hold as they are stated *)

(** The claim on one run: when the directory is absent or empty, no command
    is launched and the run ends with an error event. *)
Definition precondition_claim (w : world) : Prop :=
  listdir w (image_path_for_colmap w) = None
  ∨ listdir w (image_path_for_colmap w) = Some [] →
  commands w = []
  ∧ ∃ ev, last (stream w) = Some ev ∧ ev !! "type" = Some (str "error").

(** The claim on one stream: every progress is a number between 0 and 100,
    and no event has a smaller progress than the event before it. *)
Definition progress_claim (s : list event) : Prop :=
  Forall (λ ev, ∃ z, numeric_progress ev = Some z ∧ 0 ≤ z ≤ 100) s
  ∧ ∀ i ev1 ev2 z1 z2,
      s !! i = Some ev1 → s !! S i = Some ev2 →
      numeric_progress ev1 = Some z1 → numeric_progress ev2 = Some z2 →
      z1 ≤ z2.

(** The claim on one run in which the mapper was launched and exited with 0:
    for a root that holds the subdirectories ["1"] and ["2"] the converter is
    launched on ["1"]; with no subdirectory it is launched on the entry ["0"]
    when that exists; when that is absent too the run ends with the error
    event and no command is launched after the mapper. *)
Definition discovery_claim (w : world) : Prop :=
  map_cmd w ∈ commands w →
  exit_code w (map_cmd w) = 0 →
  (sparse_iterdir w ≡ₚ [("1", true); ("2", true)] →
   converter_cmd w "1" ∈ commands w)
  ∧ (first_subdirectory (sparse_iterdir w) = None →
     sparse_exists w "0" = true →
     converter_cmd w "0" ∈ commands w)
  ∧ (first_subdirectory (sparse_iterdir w) = None →
     sparse_exists w "0" = false →
     last (stream w) = Some no_sparse_model
     ∧ commands w = [fe_cmd w; em_cmd w; map_cmd w]).

(** ** Sample runs *)

(** A codec whose images have no [_getexif] method, as for PNG files. *)
Definition png_codec : codec := {|
  pil_open := λ _, None;
  pil_tags := [(271, "Make"); (274, "Orientation"); (305, "Software")];
  pil_getexif := λ _, Error "'PngImageFile' object has no attribute '_getexif'";
  pil_rotate := λ _ _, None;
  cv_decode := λ _, None;
  cv_shape := λ _, (480, 640);
  fs_mkdir := λ _, None;
  cv_imwrite := λ _, Ok true;
|}.

(** Two JPEG images and a text file uploaded, every tool succeeds, the mapper
    writes the model [0] and the fusion leaves [fused.ply]. *)
Definition sample_world : world := {|
  base_dir := "/srv/app";
  run_id := "ab12cd34";
  images_iterdir := ["b.jpg"; "notes.txt"; "a.jpg"];
  the_codec := plain_codec;
  listdir := λ p,
    if String.eqb p "/srv/app/runs/ab12cd34/out/final_processed"
    then Some ["b.jpg"; "a.jpg"] else None;
  popen := λ _, {| reads := ["Elapsed time: 0.1 [minutes]
"]; returncode := 0 |};
  sparse_iterdir := [("0", true)];
  fused_ply_exists := true;
|}.

(** The mapper leaves two models, listed as ["1"] then ["2"]. *)
Definition two_models_world : world := {|
  base_dir := "/srv/app";
  run_id := "ab12cd34";
  images_iterdir := ["b.jpg"; "notes.txt"; "a.jpg"];
  the_codec := plain_codec;
  listdir := λ p,
    if String.eqb p "/srv/app/runs/ab12cd34/out/final_processed"
    then Some ["b.jpg"; "a.jpg"] else None;
  popen := λ _, {| reads := []; returncode := 0 |};
  sparse_iterdir := [("1", true); ("2", true)];
  fused_ply_exists := true;
|}.

(** The mapper leaves two models and the directory lists ["2"] before ["1"]. *)
Definition two_models_reversed_world : world := {|
  base_dir := "/srv/app";
  run_id := "ab12cd34";
  images_iterdir := ["b.jpg"; "notes.txt"; "a.jpg"];
  the_codec := plain_codec;
  listdir := λ p,
    if String.eqb p "/srv/app/runs/ab12cd34/out/final_processed"
    then Some ["b.jpg"; "a.jpg"] else None;
  popen := λ _, {| reads := []; returncode := 0 |};
  sparse_iterdir := [("2", true); ("1", true)];
  fused_ply_exists := true;
|}.

(** The mapper leaves no directory, and a file named ["0"]. *)
Definition file_zero_world : world := {|
  base_dir := "/srv/app";
  run_id := "ab12cd34";
  images_iterdir := ["b.jpg"; "notes.txt"; "a.jpg"];
  the_codec := plain_codec;
  listdir := λ p,
    if String.eqb p "/srv/app/runs/ab12cd34/out/final_processed"
    then Some ["b.jpg"; "a.jpg"] else None;
  popen := λ _, {| reads := []; returncode := 0 |};
  sparse_iterdir := [("0", false)];
  fused_ply_exists := true;
|}.

(** The mapper exits with 0 and leaves nothing. *)
Definition no_model_world : world := {|
  base_dir := "/srv/app";
  run_id := "ab12cd34";
  images_iterdir := ["b.jpg"; "notes.txt"; "a.jpg"];
  the_codec := plain_codec;
  listdir := λ p,
    if String.eqb p "/srv/app/runs/ab12cd34/out/final_processed"
    then Some ["b.jpg"; "a.jpg"] else None;
  popen := λ _, {| reads := []; returncode := 0 |};
  sparse_iterdir := [];
  fused_ply_exists := false;
|}.

(** Every [cv2.imwrite] fails without raising (it returns [False]), so the
    stage folders exist and are empty. *)
Definition empty_final_world : world := {|
  base_dir := "/srv/app";
  run_id := "ab12cd34";
  images_iterdir := ["a.jpg"];
  the_codec := {|
    pil_open := λ _, None;
    pil_tags := [(274, "Orientation")];
    pil_getexif := λ _, Ok None;
    pil_rotate := λ _ _, None;
    cv_decode := λ _, None;
    cv_shape := λ _, (480, 640);
    fs_mkdir := λ _, None;
    cv_imwrite := λ _, Ok false;
  |};
  listdir := λ p,
    if String.eqb p "/srv/app/runs/ab12cd34/out/final_processed"
    then Some [] else None;
  popen := λ _, {| reads := []; returncode := 0 |};
  sparse_iterdir := [("0", true)];
  fused_ply_exists := true;
|}.

(** Preprocessing succeeds and [final_processed] is not there any more. *)
Definition missing_final_world : world := {|
  base_dir := "/srv/app";
  run_id := "ab12cd34";
  images_iterdir := ["a.jpg"];
  the_codec := plain_codec;
  listdir := λ _, None;
  popen := λ _, {| reads := []; returncode := 0 |};
  sparse_iterdir := [("0", true)];
  fused_ply_exists := true;
|}.

(** Three uploads, the second of which is not an image [Image.open] can
    identify. *)
Definition corrupt_world : world := {|
  base_dir := "/srv/app";
  run_id := "ab12cd34";
  images_iterdir := ["c.jpg"; "a.jpg"; "b.jpg"];
  the_codec := {|
    pil_open := λ p,
      if String.eqb p "/srv/app/runs/ab12cd34/images/b.jpg"
      then Some "cannot identify image file" else None;
    pil_tags := [(274, "Orientation")];
    pil_getexif := λ _, Ok None;
    pil_rotate := λ _ _, None;
    cv_decode := λ _, None;
    cv_shape := λ _, (480, 640);
    fs_mkdir := λ _, None;
    cv_imwrite := λ _, Ok true;
  |};
  listdir := λ _, None;
  popen := λ _, {| reads := []; returncode := 0 |};
  sparse_iterdir := [];
  fused_ply_exists := false;
|}.

(** The run of [sample_world] in which the model converter exits with 1. *)
Definition converter_fails_world : world := {|
  base_dir := "/srv/app";
  run_id := "ab12cd34";
  images_iterdir := ["b.jpg"; "notes.txt"; "a.jpg"];
  the_codec := plain_codec;
  listdir := λ p,
    if String.eqb p "/srv/app/runs/ab12cd34/out/final_processed"
    then Some ["b.jpg"; "a.jpg"] else None;
  popen := λ cmd,
    {| reads := ["Elapsed time: 0.1 [minutes]
"];
       returncode := if String.eqb (subcommand cmd) "model_converter" then 1 else 0 |};
  sparse_iterdir := [("0", true)];
  fused_ply_exists := true;
|}.

(** One PNG image uploaded, every tool succeeds. *)
Definition png_world : world := {|
  base_dir := "/srv/app";
  run_id := "ab12cd34";
  images_iterdir := ["a.png"];
  the_codec := png_codec;
  listdir := λ p,
    if String.eqb p "/srv/app/runs/ab12cd34/out/final_processed"
    then Some ["a.jpg"] else None;
  popen := λ _, {| reads := []; returncode := 0 |};
  sparse_iterdir := [("0", true)];
  fused_ply_exists := true;
|}.

(** * Properties *)

(** ** Examples *)

Example suffix_png : Path.suffix "IMG_1.PNG" = ".PNG". Proof. reflexivity. Qed.
Example suffix_hidden : Path.suffix ".png" = "". Proof. reflexivity. Qed.
Example suffix_trailing_dot : Path.suffix "a." = "". Proof. reflexivity. Qed.
Example suffix_two_dots : Path.suffix "a.tar.gz" = ".gz". Proof. reflexivity. Qed.
Example stem_two_dots : Path.stem "a.tar.gz" = "a.tar". Proof. reflexivity. Qed.
Example with_suffix_png : Path.with_suffix "a.png" ".jpg" = Some "a.jpg".
Proof. reflexivity. Qed.
Example strip_line : Str.strip "  Elapsed time: 0.1 [minutes]
" = "Elapsed time: 0.1 [minutes]".
Proof. reflexivity. Qed.
Example strip_no_break_space :
  let nbsp := String (ascii_of_nat 194) (String (ascii_of_nat 160) "") in
  let em_space :=
    String (ascii_of_nat 226) (String (ascii_of_nat 128) (String (ascii_of_nat 131) "")) in
  Str.strip (em_space +:+ "Done" +:+ nbsp +:+ " ") = "Done".
Proof. reflexivity. Qed.
Example format_negative : format (SInt (-9)) = "-9". Proof. reflexivity. Qed.
Example join_cmd : Str.join " " ["colmap"; "mapper"; "--x"] = "colmap mapper --x".
Proof. reflexivity. Qed.

Example preprocess_png_writes :
  written (Py.trace (preprocessing.preprocess_and_save_all_stages
                       plain_codec "in" "a.png" "out" 2048))
  = ["out/histogram_equalized/a.jpg"; "out/gaussian_blur/a.jpg";
     "out/sharpened/a.jpg"; "out/edges/a_edges.png";
     "out/median_filtered/a_median.png"; "out/morphology/a_morph.png";
     "out/final_processed/a.jpg"].
Proof. reflexivity. Qed.

(** ** Computations *)

(** The monad operations of [py], in terms of [Py.bind] and [Py.ret]. *)
Ltac py_unfold := unfold mbind, py_bind, mret, py_ret in *.

Section PyFacts.

Context {A B : Type}.
Implicit Types (t : list action) (m : py A) (f : A → py B).

Lemma bind_continue t a f :
  Py.bind (t, Continue a) f = (t ++ (f a).1, (f a).2).
Proof. unfold Py.bind. by destruct (f a). Qed.

Lemma bind_return t v f : Py.bind ((t, Return v) : py A) f = (t, Return v).
Proof. reflexivity. Qed.

Lemma bind_raise t e f : Py.bind ((t, Raise e) : py A) f = (t, Raise e).
Proof. reflexivity. Qed.

(** The trace of a sequence starts with the trace of its first part. *)
Lemma bind_trace m f :
  (Py.bind m f).1 = m.1 ++ match m.2 with Continue a => (f a).1 | _ => [] end.
Proof.
  destruct m as [t [a|v|e]].
  - by rewrite bind_continue.
  - by rewrite bind_return; simpl; rewrite app_nil_r.
  - by rewrite bind_raise; simpl; rewrite app_nil_r.
Qed.

Lemma bind_outcome m f :
  (Py.bind m f).2 = match m.2 with
                    | Continue a => (f a).2
                    | Return v => Return v
                    | Raise e => Raise e
                    end.
Proof.
  destruct m as [t [a|v|e]]; [by rewrite bind_continue | done..].
Qed.

End PyFacts.

Lemma events_app t1 t2 : events (t1 ++ t2) = events t1 ++ events t2.
Proof. apply omap_app. Qed.

Lemma launched_app t1 t2 : launched (t1 ++ t2) = launched t1 ++ launched t2.
Proof. apply omap_app. Qed.

Lemma written_app t1 t2 : written (t1 ++ t2) = written t1 ++ written t2.
Proof. apply omap_app. Qed.

Lemma for_each_cons {A} (x : A) (l : list A) (body : A → py unit) :
  Py.for_each (x :: l) body = Py.bind (body x) (λ _, Py.for_each l body).
Proof. reflexivity. Qed.

(** A loop whose body always falls through performs the actions of all its
    iterations. *)
Lemma for_each_continue {A} (l : list A) (body : A → py unit) :
  (∀ x, x ∈ l → (body x).2 = Continue tt) →
  Py.for_each l body = (concat ((λ x, (body x).1) <$> l), Continue tt).
Proof.
  induction l as [|x l IH]; intros Hbody; [done|].
  rewrite for_each_cons, fmap_cons, concat_cons.
  destruct (body x) as [t o] eqn:Hx.
  assert (o = Continue tt) as ->.
  { specialize (Hbody x (list_elem_of_here _ _)). by rewrite Hx in Hbody. }
  rewrite bind_continue, IH; [done|].
  intros y Hy. apply Hbody. by apply list_elem_of_further.
Qed.

(** A loop stops at the first iteration that does not fall through. *)
Lemma for_each_stop {A} (l1 l2 : list A) (x : A) (body : A → py unit) :
  (∀ y, y ∈ l1 → (body y).2 = Continue tt) →
  (∀ u, (body x).2 ≠ Continue u) →
  Py.for_each (l1 ++ x :: l2) body
  = (concat ((λ y, (body y).1) <$> l1) ++ (body x).1, (body x).2).
Proof.
  induction l1 as [|y l1 IH]; intros Hl1 Hx.
  - rewrite app_nil_l, for_each_cons.
    destruct (body x) as [t [u|v|e]]; simpl in *; [by destruct (Hx u)|done..].
  - rewrite <- app_comm_cons, for_each_cons, fmap_cons, concat_cons.
    destruct (body y) as [t o] eqn:Hy.
    assert (o = Continue tt) as ->.
    { specialize (Hl1 y (list_elem_of_here _ _)). by rewrite Hy in Hl1. }
    rewrite bind_continue, IH; simpl; [by rewrite app_assoc|..|done].
    intros z Hz. apply Hl1. by apply list_elem_of_further.
Qed.

(** ** File names *)

Lemma append_cons a s t : String a s +:+ t = String a (s +:+ t).
Proof. reflexivity. Qed.

Lemma length_append s t :
  String.length (s +:+ t) = (String.length s + String.length t)%nat.
Proof. induction s as [|a s IH]; [done|]. rewrite append_cons. simpl. by rewrite IH. Qed.

Lemma rfind_app c s t :
  Str.rfind c (s +:+ t)
  = match Str.rfind c t with
    | Some j => Some (String.length s + j)%nat
    | None => Str.rfind c s
    end.
Proof.
  induction s as [|a s IH].
  - change ("" +:+ t) with t. by destruct (Str.rfind c t).
  - rewrite append_cons. simpl. rewrite IH. by destruct (Str.rfind c t).
Qed.

Lemma substring_app_skip s t n m :
  String.substring (String.length s + n) m (s +:+ t) = String.substring n m t.
Proof. induction s as [|a s IH]; [done|]. rewrite append_cons. simpl. apply IH. Qed.

(** The suffix of a name that ends with a fixed tail is the suffix of the tail. *)
Lemma suffix_app s t j :
  Str.rfind "." t = Some j →
  (j < String.length t - 1)%nat →
  (0 < String.length s + j)%nat →
  Path.suffix (s +:+ t) = String.substring j (String.length t - j) t.
Proof.
  intros Hj Hlt Hpos. unfold Path.suffix, Path.suffix_index.
  rewrite rfind_app, Hj, length_append.
  assert ((0 <? String.length s + j)%nat = true) as -> by (apply Nat.ltb_lt; lia).
  assert ((String.length s + j <? String.length s + String.length t - 1)%nat = true)
    as -> by (apply Nat.ltb_lt; lia).
  simpl.
  replace (String.length s + String.length t - (String.length s + j))%nat
    with (String.length t - j)%nat by lia.
  apply substring_app_skip.
Qed.

Lemma suffix_edges s : Path.suffix (s +:+ "_edges.png") = ".png".
Proof. by rewrite (suffix_app s "_edges.png" 6); [|done|simpl; lia|lia]. Qed.

Lemma suffix_median s : Path.suffix (s +:+ "_median.png") = ".png".
Proof. by rewrite (suffix_app s "_median.png" 7); [|done|simpl; lia|lia]. Qed.

Lemma suffix_morph s : Path.suffix (s +:+ "_morph.png") = ".png".
Proof. by rewrite (suffix_app s "_morph.png" 6); [|done|simpl; lia|lia]. Qed.

(** ** The image stage pipeline *)

Lemma file_actions_quiet t :
  Forall file_action t → events t = [] ∧ launched t = [].
Proof.
  induction 1 as [|a t Ha _ [IH1 IH2]]; [done|].
  destruct a; simpl in *; done.
Qed.

Lemma imwrites_app t1 t2 : imwrites (t1 ++ t2) = imwrites t1 ++ imwrites t2.
Proof. apply omap_app. Qed.

Lemma stage_writes_bind {A B} (m : py A) (f : A → py B) ws1 ws2 :
  stage_writes m ws1 →
  (∀ a, m.2 = Continue a → stage_writes (f a) ws2) →
  stage_writes (Py.bind m f) (ws1 ++ ws2).
Proof.
  intros (Hpre & Hfile & Hret & Hall) Hf.
  destruct m as [t [a|v|e]].
  - destruct (Hf a eq_refl) as (Hpre' & Hfile' & Hret' & Hall').
    rewrite bind_continue. unfold stage_writes. simpl in *.
    rewrite imwrites_app, (Hall a eq_refl).
    split_and!; [by apply prefix_app|by apply Forall_app|done|].
    intros b Hb. by rewrite (Hall' b Hb).
  - by destruct (Hret v).
  - rewrite bind_raise. unfold stage_writes. simpl in *.
    split_and!; [by apply prefix_app_r|done..].
Qed.

Lemma stage_writes_pure {A} (o : outcome A) :
  (∀ v, o ≠ Return v) → stage_writes (([], o) : py A) [].
Proof. intros Ho. split_and!; done. Qed.

Lemma stage_writes_check r : stage_writes (Py.check r) [].
Proof. destruct r; by apply stage_writes_pure. Qed.

Lemma stage_writes_lift {A} (r : result A) : stage_writes (Py.lift r) [].
Proof. destruct r; by apply stage_writes_pure. Qed.

Lemma stage_writes_ret {A} (a : A) : stage_writes (Py.ret a) [].
Proof. by apply stage_writes_pure. Qed.

Lemma stage_writes_raise {A} e : stage_writes (@Py.raise A e) [].
Proof. by apply stage_writes_pure. Qed.

Lemma stage_writes_try {A} (m : py A) h :
  stage_writes m [] → (∀ e, stage_writes (h e) []) →
  stage_writes (Py.try_except m h) [].
Proof.
  intros (Hpre & Hfile & Hret & Hall) Hh.
  destruct m as [t [a|v|e]]; simpl in *; [done| by destruct (Hret v) |].
  destruct (Hh e) as (Hpre' & Hfile' & Hret' & Hall').
  destruct (h e) as [t' o'] eqn:He; simpl in *.
  apply prefix_nil_inv in Hpre, Hpre'.
  split_and!; simpl; [by rewrite imwrites_app, Hpre, Hpre'|by apply Forall_app|done|].
  intros _ _. by rewrite imwrites_app, Hpre, Hpre'.
Qed.

Lemma orient_image_writes c img : stage_writes (preprocessing.orient_image c img) [].
Proof.
  unfold preprocessing.orient_image, preprocessing.rotate. py_unfold.
  change [] with (@nil (string * nat * list Z) ++ []).
  apply stage_writes_bind; [apply stage_writes_lift|].
  intros [exif|] _; [|apply stage_writes_ret].
  destruct (preprocessing.orientation_key _ _); [|apply stage_writes_raise].
  repeat case_decide; try apply stage_writes_ret;
    (change [] with (@nil (string * nat * list Z) ++ []);
     apply stage_writes_bind; [apply stage_writes_check|intros; apply stage_writes_ret]).
Qed.

Lemma load_image_writes c path : stage_writes (preprocessing.load_image c path) [].
Proof.
  unfold preprocessing.load_image. py_unfold.
  change [] with (@nil (string * nat * list Z) ++ ([] ++ ([] ++ []))).
  apply stage_writes_bind; [apply stage_writes_check|intros _ _].
  apply stage_writes_bind.
  { apply stage_writes_try; [apply orient_image_writes|intros; apply stage_writes_ret]. }
  intros img _.
  apply stage_writes_bind; [apply stage_writes_check|intros; apply stage_writes_ret].
Qed.

Lemma stage_writes_imwrite c p img params :
  stage_writes (Py.bind (Py.do (Imwrite p img params))
                  (λ _, Py.bind (Py.lift (cv_imwrite c p)) (λ _, Py.ret tt)))
    [(p, ndim img, params)].
Proof.
  unfold Py.do. rewrite bind_continue.
  destruct (cv_imwrite c p) as [b|e]; simpl;
    by split_and!; [|repeat constructor|..].
Qed.

(** One call of [save_image] makes the write the naming rule prescribes. *)
Lemma save_image_writes c folder name img :
  stage_writes (preprocessing.save_image c folder name img)
    [(Path.child folder (saved_name name (ndim img)), ndim img, saved_params (ndim img))].
Proof.
  unfold preprocessing.save_image, preprocessing.with_suffix, saved_name, saved_params,
    Path.with_suffix.
  py_unfold.
  match goal with |- stage_writes _ ?ws => change ws with ([] ++ ([] ++ ([] ++ ws))) end.
  apply stage_writes_bind.
  { split_and!; [done|repeat constructor|done..]. }
  intros _ _. apply stage_writes_bind; [apply stage_writes_check|intros _ _].
  destruct (ndim img =? 2)%nat.
  - apply stage_writes_bind.
    + destruct (Str.mem _ [".png"]); simpl; [apply stage_writes_ret|].
      destruct (String.eqb name ""); [apply stage_writes_raise|apply stage_writes_ret].
    + intros out_name Hout.
      destruct (Str.mem _ [".png"]); simpl in Hout;
        [|destruct (String.eqb name ""); simpl in Hout]; simplify_eq;
        apply stage_writes_imwrite.
  - apply stage_writes_bind.
    + destruct (Str.mem _ [".jpg"; ".jpeg"]); simpl; [apply stage_writes_ret|].
      destruct (String.eqb name ""); [apply stage_writes_raise|apply stage_writes_ret].
    + intros out_name Hout.
      destruct (Str.mem _ [".jpg"; ".jpeg"]); simpl in Hout;
        [|destruct (String.eqb name ""); simpl in Hout]; simplify_eq;
        apply stage_writes_imwrite.
Qed.

Lemma saved_name_edges s : saved_name (s +:+ "_edges.png") 2 = s +:+ "_edges.png".
Proof. unfold saved_name. by rewrite suffix_edges. Qed.

Lemma saved_name_median s : saved_name (s +:+ "_median.png") 2 = s +:+ "_median.png".
Proof. unfold saved_name. by rewrite suffix_median. Qed.

Lemma saved_name_morph s : saved_name (s +:+ "_morph.png") 2 = s +:+ "_morph.png".
Proof. unfold saved_name. by rewrite suffix_morph. Qed.

Lemma preprocess_writes c in_dir name out_root max_size :
  stage_writes
    (preprocessing.preprocess_and_save_all_stages c in_dir name out_root max_size)
    (stage_outputs out_root name).
Proof.
  unfold preprocessing.preprocess_and_save_all_stages, stage_outputs. py_unfold.
  match goal with |- stage_writes _ ?ws => change ws with ([] ++ ws) end.
  apply stage_writes_bind; [apply load_image_writes|intros img _].
  destruct (cv_shape c img) as [h w].
  repeat match goal with
  | |- stage_writes (Py.bind _ _) (?x :: ?ws) =>
      change (x :: ws) with ([x] ++ ws);
      apply stage_writes_bind; [|intros _ _]
  end.
  all: match goal with
       | |- stage_writes (preprocessing.save_image ?c ?folder ?n ?a) _ =>
           generalize (save_image_writes c folder n a);
           rewrite ?saved_name_edges, ?saved_name_median, ?saved_name_morph;
           intros Hsave; exact Hsave
       end.
Qed.

(** ** The external stage runner *)

Lemma run_cmd_eq w cmd ps pe nm :
  run_cmd w cmd ps pe nm
  = (running_trace w cmd ps
       ++ (Yield <$> closing_events cmd (returncode (popen w cmd)) ps pe nm),
     Return (SBool (returncode (popen w cmd) =? 0))).
Proof.
  unfold run_cmd, running_trace, Py.yield, Py.do. py_unfold.
  match goal with
  | |- context [Py.for_each ?l ?b] =>
      assert (Py.for_each l b
              = (Yield <$> ((λ line, log_event (Str.strip line) ps)
                              <$> captured_lines (popen w cmd)), Continue tt)) as ->
  end.
  { unfold captured_lines. induction (reads (popen w cmd)) as [|line l IH]; [done|].
    rewrite for_each_cons, IH. simpl.
    destruct (String.eqb line ""); simpl; unfold Py.ret; by rewrite bind_continue. }
  rewrite !bind_continue. simpl. unfold closing_events.
  destruct (returncode (popen w cmd) =? 0); simpl.
  - destruct (truthy nm); unfold Py.ret; rewrite !bind_continue; simpl;
      by rewrite ?app_nil_r.
  - by rewrite ?app_nil_r.
Qed.

Lemma status_not_error m p : type_is_error (status_event m p) = false.
Proof. reflexivity. Qed.

Lemma log_not_error m p : type_is_error (log_event m p) = false.
Proof. reflexivity. Qed.

Lemma stage_done_not_error n p : type_is_error (colmap_stage_done n p) = false.
Proof. reflexivity. Qed.

Lemma error_is_error m p : type_is_error (error_event m p) = true.
Proof. reflexivity. Qed.

Lemma forward_body_eq ev :
  forward_body ev
  = ([Yield ev], if type_is_error ev then Return SNone else Continue tt).
Proof.
  unfold forward_body, Py.yield, Py.do. py_unfold. rewrite bind_continue.
  by destruct (type_is_error ev).
Qed.

Lemma for_gen_cons_yield ev t o body :
  Py.for_gen_trace (Yield ev :: t) o body
  = Py.bind (body ev) (λ _, Py.for_gen_trace t o body).
Proof. reflexivity. Qed.

(** A forwarding loop over events none of which stops it replays the trace of
    the generator. *)
Lemma for_gen_all t o body :
  (∀ ev, Yield ev ∈ t → body ev = ([Yield ev], Continue tt)) →
  (∀ e, o ≠ Raise e) →
  Py.for_gen_trace t o body = (t, Continue tt).
Proof.
  intros Hbody Ho. induction t as [|a t IH].
  - simpl. destruct o as [u|v|e]; [done..|by destruct (Ho e)].
  - assert (Py.for_gen_trace t o body = (t, Continue ())) as IH'.
    { apply IH. intros ev Hev. apply Hbody. by apply list_elem_of_further. }
    destruct a as [ev| | | |];
      try (simpl; unfold Py.do; by rewrite bind_continue, IH').
    rewrite for_gen_cons_yield, (Hbody ev (list_elem_of_here _ _)), bind_continue.
    by rewrite IH'.
Qed.

(** It ends at the first event on which the body returns. *)
Lemma for_gen_stop t1 ev t2 o v body :
  (∀ ev', Yield ev' ∈ t1 → body ev' = ([Yield ev'], Continue tt)) →
  body ev = ([Yield ev], Return v) →
  Py.for_gen_trace (t1 ++ Yield ev :: t2) o body = (t1 ++ [Yield ev], Return v).
Proof.
  intros Hbody Hev. induction t1 as [|a t1 IH].
  - rewrite app_nil_l, for_gen_cons_yield, Hev. done.
  - assert (Py.for_gen_trace (t1 ++ Yield ev :: t2) o body = (t1 ++ [Yield ev], Return v))
      as IH'.
    { apply IH. intros ev' Hev'. apply Hbody. by apply list_elem_of_further. }
    rewrite <- !app_comm_cons.
    destruct a as [ev'| | | |];
      try (simpl; unfold Py.do; by rewrite bind_continue, IH').
    rewrite for_gen_cons_yield, (Hbody ev' (list_elem_of_here _ _)), bind_continue.
    by rewrite IH'.
Qed.

Lemma running_trace_no_error w cmd ps ev :
  Yield ev ∈ running_trace w cmd ps → type_is_error ev = false.
Proof.
  unfold running_trace. rewrite !elem_of_cons, list_elem_of_fmap.
  intros [?|[?|(ev' & ? & Hev')]]; simplify_eq; [done|].
  apply list_elem_of_fmap in Hev' as (line & -> & _). done.
Qed.

(** Forwarding [run_cmd]: every event is passed on, and the generator goes on
    exactly when the command exits with 0. *)
Lemma closing_events_ok cmd ps pe nm ev :
  ev ∈ closing_events cmd 0 ps pe nm → type_is_error ev = false.
Proof.
  unfold closing_events. simpl. destruct (truthy nm); simpl;
    rewrite ?elem_of_cons, elem_of_nil; intros; destruct_or!; by simplify_eq.
Qed.

(** Forwarding [run_cmd]: every event is passed on, and the generator goes on
    exactly when the command exits with 0. *)
Lemma forward_run_cmd w cmd ps pe nm :
  forward (run_cmd w cmd ps pe nm)
  = ((run_cmd w cmd ps pe nm).1,
     if returncode (popen w cmd) =? 0 then Continue tt else Return SNone).
Proof.
  unfold forward, Py.for_gen.
  change (λ ev, Py.yield ev;; if type_is_error ev then Py.return_ SNone else mret tt)
    with forward_body.
  rewrite run_cmd_eq. cbn [fst snd].
  destruct (returncode (popen w cmd) =? 0) eqn:Hrc.
  - apply Z.eqb_eq in Hrc. rewrite Hrc.
    apply for_gen_all; [|done]. intros ev Hev. rewrite forward_body_eq.
    apply elem_of_app in Hev as [Hev|Hev].
    + by rewrite (running_trace_no_error _ _ _ _ Hev).
    + apply list_elem_of_fmap in Hev as (ev' & ? & Hev'). simplify_eq.
      by rewrite (closing_events_ok _ _ _ _ _ Hev').
  - unfold closing_events. rewrite Hrc. simpl fmap.
    apply for_gen_stop; [|by rewrite forward_body_eq].
    intros ev Hev. rewrite forward_body_eq.
    by rewrite (running_trace_no_error _ _ _ _ Hev).
Qed.

Lemma forward_stage_body_eq ev :
  ev !! "stage" = None → forward_stage_body ev = ([Yield ev], Continue tt).
Proof.
  intros Hev. unfold forward_stage_body, stage_startswith_error, get, Py.yield, Py.do.
  py_unfold. rewrite Hev. simpl. unfold Py.ret. by rewrite !bind_continue.
Qed.

(** No event of [run_cmd] has a ["stage"] key. *)
Lemma run_cmd_no_stage_key w cmd ps pe nm ev :
  Yield ev ∈ (run_cmd w cmd ps pe nm).1 → ev !! "stage" = None.
Proof.
  rewrite run_cmd_eq. cbn [fst]. unfold running_trace, closing_events.
  rewrite elem_of_app, !elem_of_cons, !list_elem_of_fmap.
  intros [[?|[?|(ev' & ? & Hev')]]|(ev' & ? & Hev')]; simplify_eq; [done|..].
  - apply list_elem_of_fmap in Hev' as (line & -> & _). done.
  - destruct (_ =? 0); destruct (truthy nm); simpl in Hev';
      rewrite ?elem_of_cons, elem_of_nil in Hev'; destruct_or!; by simplify_eq.
Qed.

(** The check on the ["stage"] key never fires: the events of the model
    converter are all passed on and the generator always goes on. *)
Lemma forward_stage_run_cmd w cmd ps pe nm :
  forward_stage (run_cmd w cmd ps pe nm) = ((run_cmd w cmd ps pe nm).1, Continue tt).
Proof.
  unfold forward_stage, Py.for_gen.
  change (λ ev, Py.yield ev;; b ← stage_startswith_error ev;
                if b : bool then Py.return_ SNone else mret tt)
    with forward_stage_body.
  apply for_gen_all.
  - intros ev Hev. apply forward_stage_body_eq. by eapply run_cmd_no_stage_key.
  - rewrite run_cmd_eq. done.
Qed.

(** ** The batch preprocessor *)

Lemma for_each_ext {A} (l : list A) (f g : A → py unit) :
  (∀ x, f x = g x) → Py.for_each l f = Py.for_each l g.
Proof.
  intros Hfg. induction l as [|x l IH]; [done|].
  by rewrite !for_each_cons, Hfg, IH.
Qed.

Lemma preprocess_images_eq w :
  preprocess_images w = Py.for_each (enumerate 1 (image_paths w)) (image_body w).
Proof. unfold preprocess_images. apply for_each_ext. by intros [i name]. Qed.

Lemma image_result_quiet w name :
  events (image_result w name).1 = [] ∧ launched (image_result w name).1 = [].
Proof. apply file_actions_quiet, (preprocess_writes (the_codec w)). Qed.

(** An image that preprocesses is announced; an exception ends the run. *)
Lemma image_body_eq w i name :
  image_body w (i, name)
  = match (image_result w name).2 with
    | Continue _ =>
        ((image_result w name).1 ++ [Yield (preprocess_event w i name)], Continue tt)
    | Raise e =>
        ((image_result w name).1 ++ [Yield (preprocessing_failed e)], Return SNone)
    | Return v => ((image_result w name).1, Return v)
    end.
Proof.
  unfold image_body, Py.yield, Py.do, Py.return_. py_unfold. cbn [fst snd].
  destruct (image_result w name) as [t [[]|v|e]]; cbn [fst snd].
  - by rewrite bind_continue.
  - done.
  - rewrite bind_raise. unfold Py.try_except. by rewrite bind_continue.
Qed.

Lemma image_result_no_return w name v : (image_result w name).2 ≠ Return v.
Proof. apply (preprocess_writes (the_codec w)). Qed.

Lemma preprocesses_continue w name :
  preprocesses w name = true → ∃ u, (image_result w name).2 = Continue u.
Proof. unfold preprocesses. destruct (image_result w name).2; naive_solver. Qed.

Lemma enumerate_app {A} start (l1 l2 : list A) :
  enumerate start (l1 ++ l2)
  = enumerate start l1 ++ enumerate (start + length l1) l2.
Proof.
  revert start. induction l1 as [|x l1 IH]; intros start; simpl.
  - by rewrite Nat.add_0_r.
  - rewrite IH. do 3 f_equal. lia.
Qed.

Lemma enumerate_snd {A} start (l : list A) p : p ∈ enumerate start l → p.2 ∈ l.
Proof.
  revert start. induction l as [|x l IH]; intros start; simpl; [by rewrite elem_of_nil|].
  rewrite !elem_of_cons. intros [->|Hp]; [by left|right; eauto].
Qed.

(** Every image preprocesses: one event per image, and the run goes on. *)
Lemma for_each_images_ok w start l :
  (∀ name, name ∈ l → preprocesses w name = true) →
  Py.for_each (enumerate start l) (image_body w) = (images_trace w start l, Continue tt).
Proof.
  intros Hok'.
  assert (∀ name, name ∈ l → ∃ u, (image_result w name).2 = Continue u) as Hok
    by (intros; by apply preprocesses_continue, Hok').
  rewrite for_each_continue.
  - unfold images_trace. do 2 f_equal. apply list_fmap_ext.
    intros _ [i name] Hp%list_elem_of_lookup_2%enumerate_snd.
    rewrite image_body_eq. by destruct (Hok name Hp) as [u ->].
  - intros [i name] Hp%enumerate_snd. rewrite image_body_eq.
    by destruct (Hok name Hp) as [u ->].
Qed.

(** The first image that raises ends the run with one error event. *)
Lemma for_each_images_fail w start l1 name l2 e :
  (∀ n, n ∈ l1 → preprocesses w n = true) →
  (image_result w name).2 = Raise e →
  Py.for_each (enumerate start (l1 ++ name :: l2)) (image_body w)
  = (images_trace w start l1 ++ (image_result w name).1 ++ [Yield (preprocessing_failed e)],
     Return SNone).
Proof.
  intros Hok' Hfail.
  assert (∀ n, n ∈ l1 → ∃ u, (image_result w n).2 = Continue u) as Hok
    by (intros; by apply preprocesses_continue, Hok').
  rewrite enumerate_app. simpl enumerate.
  rewrite for_each_stop.
  - rewrite image_body_eq, Hfail. unfold images_trace. cbn [fst snd].
    do 3 f_equal. apply list_fmap_ext.
    intros _ [i n] Hp%list_elem_of_lookup_2%enumerate_snd.
    rewrite image_body_eq. by destruct (Hok n Hp) as [u ->].
  - intros [i n] Hp%enumerate_snd. rewrite image_body_eq.
    by destruct (Hok n Hp) as [u ->].
  - intros u. by rewrite image_body_eq, Hfail.
Qed.

(** A list either has no image that raises or has a first one. *)
Lemma first_failure w (l : list string) :
  (∀ name, name ∈ l → preprocesses w name = true)
  ∨ ∃ l1 name l2 e, l = l1 ++ name :: l2
      ∧ (∀ n, n ∈ l1 → preprocesses w n = true)
      ∧ (image_result w name).2 = Raise e.
Proof.
  induction l as [|x l [IH|(l1 & name & l2 & e & -> & Hl1 & Hname)]].
  - left. intros name Hname. by apply elem_of_nil in Hname.
  - destruct (image_result w x).2 as [u|v|e] eqn:Hx.
    + left. intros name [->|Hname]%elem_of_cons; [|eauto].
      unfold preprocesses. by rewrite Hx.
    + by destruct (image_result_no_return w x v).
    + right. exists [], x, l, e. split_and!; [done| |done].
      intros n Hn. by apply elem_of_nil in Hn.
  - destruct (image_result w x).2 as [u|v|e'] eqn:Hx.
    + right. exists (x :: l1), name, l2, e. split_and!; [done| |done].
      intros n [->|Hn]%elem_of_cons; [|eauto].
      unfold preprocesses. by rewrite Hx.
    + by destruct (image_result_no_return w x v).
    + right. exists [], x, (l1 ++ name :: l2), e'. split_and!; [done| |done].
      intros n Hn. by apply elem_of_nil in Hn.
Qed.

(** ** The run *)

Lemma stage_thumbnails_continue w : (stage_thumbnails w).2 = Continue tt.
Proof. reflexivity. Qed.

Lemma reset_workspace_continue w : (reset_workspace w).2 = Continue tt.
Proof.
  unfold reset_workspace. rewrite for_each_continue; [done|].
  intros p _. py_unfold. unfold Py.do, Py.ret.
  destruct (dir_exists w p); by rewrite !bind_continue.
Qed.

Lemma first_dir_exists w sub :
  first_dir (sparse_iterdir w) = Some sub → sparse_exists w sub = true.
Proof.
  unfold sparse_exists. induction (sparse_iterdir w) as [|[name d] l IH]; [done|].
  simpl. destruct d; simpl.
  - intros [= ->]. by rewrite String.eqb_refl.
  - intros Hsub. rewrite (IH Hsub). apply orb_true_r.
Qed.

Lemma first_dir_filter (l : list (string * bool)) :
  match List.filter snd l with p :: _ => Some p.1 | [] => None end = first_dir l.
Proof. induction l as [|[name d] l IH]; [done|]. simpl. by destruct d. Qed.

(** The two scans as one step: they agree on the model, or the first one ends
    the run. *)
Lemma discovery_eq w (k : string → py unit) :
  Py.bind (find_model_index w) (λ _, Py.bind (rescan_model_index w) k)
  = match discovered w with
    | Some model_index => k model_index
    | None => ([Yield no_sparse_model], Return SNone)
    end.
Proof.
  unfold find_model_index, rescan_model_index, discovered.
  pose proof (first_dir_filter (sparse_iterdir w)) as Hfilter.
  pose proof (first_dir_exists w) as Hexists.
  destruct (first_dir (sparse_iterdir w)) as [sub|].
  - destruct (List.filter snd (sparse_iterdir w)) as [|p l]; [done|].
    injection Hfilter as ->. simpl. rewrite !(Hexists _ eq_refl). simpl.
    py_unfold. unfold Py.ret. rewrite !bind_continue. by destruct (k _).
  - destruct (List.filter snd (sparse_iterdir w)) as [|p l]; [|done].
    simpl. destruct (sparse_exists w "0"); simpl.
    + py_unfold. unfold Py.ret. rewrite !bind_continue. by destruct (k "0").
    + py_unfold. unfold Py.yield, Py.do. by rewrite bind_continue.
Qed.

Lemma bind_prepend {A B} t (a : A) (f : A → py B) :
  Py.bind (t, Continue a) f = prepend t (f a).
Proof. apply bind_continue. Qed.

Lemma bind_of_continue {A B} (m : py A) (f : A → py B) a :
  m.2 = Continue a → Py.bind m f = prepend m.1 (f a).
Proof. destruct m as [t o]. simpl. intros ->. apply bind_continue. Qed.

Lemma run_shape_eq w m m' : run_shape w m → m = m' → run_shape w m'.
Proof. by intros ? <-. Qed.

Ltac shape_leaf :=
  unfold prepend, densified, mapped, preprocessed, feature_extraction, matching,
    sparse_mapping, model_conversion, undistortion, dense_stereo, fusion;
  cbn [fst snd]; rewrite <- ?app_assoc, ?app_nil_r; try reflexivity.

Ltac exit_status H :=
  match type of H with
  | (_ =? 0) = true => apply Z.eqb_eq in H
  | (_ =? 0) = false => apply Z.eqb_neq in H
  end.

(** Every run goes one of these ways. *)
Lemma process_generator_shape w : run_shape w (process_generator w).
Proof.
  unfold process_generator. py_unfold. unfold Py.yield, Py.do, Py.return_.
  rewrite 2!bind_prepend.
  destruct (total_images w =? 0)%nat eqn:Htotal.
  { apply Nat.eqb_eq in Htotal. rewrite bind_prepend.
    eapply run_shape_eq; [by apply shape_no_images|]. shape_leaf. }
  apply Nat.eqb_neq in Htotal.
  rewrite preprocess_images_eq.
  destruct (first_failure w (image_paths w))
    as [Hok|(l1 & name & l2 & e & Hpaths & Hl1 & Hfail)].
  2:{ rewrite Hpaths, (for_each_images_fail _ _ _ _ _ e), bind_return by done.
      eapply run_shape_eq; [by eapply shape_image_fails|]. shape_leaf. }
  rewrite for_each_images_ok, 2!bind_prepend by done.
  rewrite (bind_of_continue _ _ _ (stage_thumbnails_continue w)), bind_prepend.
  rewrite (bind_of_continue _ _ _ (reset_workspace_continue w)).
  destruct (dir_exists w (image_path_for_colmap w)) eqn:Hfinal; simpl negb; cbv iota.
  2:{ rewrite bind_prepend.
      eapply run_shape_eq; [by apply shape_final_missing|]. shape_leaf. }
  rewrite forward_run_cmd.
  destruct (returncode (popen w (fe_cmd w)) =? 0) eqn:Hfe; exit_status Hfe.
  2:{ rewrite bind_return.
      eapply run_shape_eq; [by apply shape_features_fail|]. shape_leaf. }
  rewrite bind_prepend, forward_run_cmd.
  destruct (returncode (popen w (em_cmd w)) =? 0) eqn:Hem; exit_status Hem.
  2:{ rewrite bind_return.
      eapply run_shape_eq; [by apply shape_matching_fails|]. shape_leaf. }
  rewrite bind_prepend, forward_run_cmd.
  destruct (returncode (popen w (map_cmd w)) =? 0) eqn:Hmap; exit_status Hmap.
  2:{ rewrite bind_return.
      eapply run_shape_eq; [by apply shape_mapping_fails|]. shape_leaf. }
  rewrite bind_prepend, discovery_eq.
  destruct (discovered w) as [model_index|] eqn:Hmodel.
  2:{ eapply run_shape_eq; [by apply shape_no_model|]. shape_leaf. }
  rewrite bind_prepend, forward_stage_run_cmd, bind_prepend, forward_run_cmd.
  destruct (returncode (popen w (undist_cmd w model_index)) =? 0) eqn:Hund;
    exit_status Hund.
  2:{ rewrite bind_return.
      eapply run_shape_eq; [by apply (shape_undistortion_fails w model_index)|]. shape_leaf. }
  rewrite bind_prepend, forward_run_cmd.
  destruct (returncode (popen w (pm_cmd w)) =? 0) eqn:Hpm; exit_status Hpm.
  2:{ rewrite bind_return.
      eapply run_shape_eq; [by apply (shape_dense_fails w model_index)|]. shape_leaf. }
  rewrite bind_prepend, forward_run_cmd.
  destruct (returncode (popen w (fuse_cmd w)) =? 0) eqn:Hfuse; exit_status Hfuse.
  2:{ rewrite bind_return.
      eapply run_shape_eq; [by apply (shape_fusion_fails w model_index)|]. shape_leaf. }
  rewrite bind_prepend.
  destruct (fused_ply_exists w) eqn:Hfused.
  - eapply run_shape_eq; [by apply (shape_done w model_index)|]. shape_leaf.
  - rewrite bind_prepend.
    eapply run_shape_eq; [by apply (shape_fused_missing w model_index)|]. shape_leaf.
Qed.

(** ** What the parts of a run yield and launch *)

Lemma events_yields l : events (Yield <$> l) = l.
Proof. unfold events. induction l as [|ev l IH]; [done|]. simpl. f_equal. apply IH. Qed.

Lemma launched_yields l : launched (Yield <$> l) = [].
Proof. unfold launched. induction l as [|ev l IH]; [done|]. apply IH. Qed.

Lemma stage_thumbnails_eq w :
  stage_thumbnails w = (Yield <$> (thumbnail_event w <$> PREPROCESS_STAGES), Continue tt).
Proof. reflexivity. Qed.

Lemma events_thumbnails w :
  events (stage_thumbnails w).1 = thumbnail_event w <$> PREPROCESS_STAGES.
Proof. rewrite stage_thumbnails_eq. cbn [fst]. apply events_yields. Qed.

Lemma launched_thumbnails w : launched (stage_thumbnails w).1 = [].
Proof. rewrite stage_thumbnails_eq. cbn [fst]. apply launched_yields. Qed.

Lemma reset_workspace_quiet w :
  events (reset_workspace w).1 = [] ∧ launched (reset_workspace w).1 = [].
Proof.
  unfold reset_workspace. rewrite for_each_continue.
  - simpl. py_unfold. unfold Py.do, Py.ret.
    repeat match goal with
           | |- context [dir_exists w ?p] => destruct (dir_exists w p)
           end; by rewrite !bind_continue.
  - intros p _. py_unfold. unfold Py.do, Py.ret.
    destruct (dir_exists w p); by rewrite !bind_continue.
Qed.

Lemma events_images_trace w start l :
  events (images_trace w start l)
  = (λ p, preprocess_event w p.1 p.2) <$> enumerate start l.
Proof.
  unfold images_trace. induction (enumerate start l) as [|p ps IH]; [done|].
  rewrite !fmap_cons, concat_cons, !events_app, IH.
  by rewrite (proj1 (image_result_quiet w p.2)).
Qed.

Lemma launched_images_trace w start l : launched (images_trace w start l) = [].
Proof.
  unfold images_trace. induction (enumerate start l) as [|p ps IH]; [done|].
  rewrite !fmap_cons, concat_cons, !launched_app, IH.
  by rewrite (proj2 (image_result_quiet w p.2)).
Qed.

Lemma events_run_cmd w cmd ps pe nm :
  events (run_cmd w cmd ps pe nm).1
  = status_event ("Running: " +:+ Str.join " " cmd) ps
    :: ((λ line, log_event (Str.strip line) ps) <$> captured_lines (popen w cmd))
    ++ closing_events cmd (returncode (popen w cmd)) ps pe nm.
Proof.
  rewrite run_cmd_eq. unfold running_trace. cbn [fst].
  rewrite events_app. simpl. by rewrite !events_yields.
Qed.

Lemma launched_run_cmd w cmd ps pe nm : launched (run_cmd w cmd ps pe nm).1 = [cmd].
Proof.
  rewrite run_cmd_eq. unfold running_trace. cbn [fst].
  rewrite launched_app. simpl. by rewrite !launched_yields.
Qed.

Lemma launched_preprocessed w : launched (preprocessed w) = [].
Proof.
  unfold preprocessed.
  rewrite !launched_app, launched_images_trace, launched_thumbnails.
  by rewrite (proj2 (reset_workspace_quiet w)).
Qed.

Lemma launched_mapped w : launched (mapped w) = [fe_cmd w; em_cmd w; map_cmd w].
Proof.
  unfold mapped, feature_extraction, matching, sparse_mapping.
  by rewrite !launched_app, launched_preprocessed, !launched_run_cmd.
Qed.

Lemma launched_densified w model_index :
  launched (densified w model_index)
  = [fe_cmd w; em_cmd w; map_cmd w; converter_cmd w model_index;
     undist_cmd w model_index; pm_cmd w].
Proof.
  unfold densified, model_conversion, undistortion, dense_stereo.
  rewrite !launched_app, launched_mapped. simpl.
  by rewrite !launched_run_cmd.
Qed.

Lemma launched_fusion w : launched (fusion w) = [fuse_cmd w].
Proof. apply launched_run_cmd. Qed.

(** The last event of a command that fails is its error event. *)
Lemma last_events_failed w cmd ps pe nm :
  returncode (popen w cmd) ≠ 0 →
  last (events (run_cmd w cmd ps pe nm).1)
  = Some (error_event ("Command " +:+ Str.join " " cmd +:+ " exited with code "
                       +:+ str_of_Z (returncode (popen w cmd))) ps).
Proof.
  intros Hrc%Z.eqb_neq. rewrite events_run_cmd. unfold closing_events. rewrite Hrc.
  by rewrite app_comm_cons, last_snoc.
Qed.

Lemma last_events_app t1 t2 ev :
  last (events t2) = Some ev → last (events (t1 ++ t2)) = Some ev.
Proof.
  intros Hev. rewrite events_app, last_app, Hev. done.
Qed.

(** ** The order of the images and their progress *)

Lemma image_paths_sorted w : Sorted String.le (image_paths w).
Proof. unfold image_paths, sorted. apply Sorted_merge_sort; apply _. Qed.

Lemma image_paths_permutation w :
  image_paths w ≡ₚ List.filter is_image (images_iterdir w).
Proof. unfold image_paths, sorted. apply merge_sort_Permutation. Qed.

Lemma binary64_agrees_100 : binary64_agrees_upto 100 = true.
Proof. vm_compute. reflexivity. Qed.

(** In a run of at most 100 images the progress Python computes in binary64
    is the exact value of the model. *)
Lemma binary64_agrees i n :
  (1 ≤ i ≤ n)%nat → (n ≤ 100)%nat →
  preprocess_progress_binary64 i n = Some (preprocess_progress i n).
Proof.
  intros Hi Hn. pose proof binary64_agrees_100 as Hall. unfold binary64_agrees_upto in Hall.
  rewrite forallb_forall in Hall.
  assert (In n (seq 1 100)) as Hn' by (apply in_seq; lia).
  specialize (Hall n Hn'). rewrite forallb_forall in Hall.
  assert (In i (seq 1 n)) as Hi' by (apply in_seq; lia).
  specialize (Hall i Hi'). by apply bool_decide_eq_true in Hall.
Qed.

(** ** The reference of the per-image event *)

Lemma append_assoc s1 s2 s3 : (s1 +:+ s2) +:+ s3 = s1 +:+ s2 +:+ s3.
Proof. induction s1 as [|a s1 IH]; [done|]. rewrite !append_cons. by rewrite IH. Qed.

(** The file that the reference of the per-image event resolves to. *)
Lemma served_reference w name :
  serve_run_out w (run_id w) ("final_processed/" +:+ name)
  = Path.child (Path.child (out_root w) "final_processed") name.
Proof.
  unfold serve_run_out, out_root, run_dir, Path.child.
  by rewrite !append_assoc.
Qed.

(** The file the final stage of an image is written to; it is the file the
    event refers to exactly when the name is kept, as for a [.jpg] or [.jpeg]
    extension. *)
Lemma final_stage_written w name :
  preprocesses w name = true →
  last (written (image_result w name).1)
  = Some (Path.child (Path.child (out_root w) "final_processed") (saved_name name 3)).
Proof.
  intros Hok%preprocesses_continue. destruct Hok as [u Hu].
  destruct (preprocess_writes (the_codec w) (images_dir w) name (out_root w) 2048)
    as (_ & _ & _ & Hall).
  specialize (Hall u Hu).
  assert (written (image_result w name).1 = (λ x, x.1.1) <$> imwrites (image_result w name).1)
    as ->.
  { unfold written, imwrites. induction (image_result w name).1 as [|a t IH]; [done|].
    destruct a; simpl; try done. f_equal. apply IH. }
  unfold image_result. by rewrite Hall.
Qed.

(** * The claims *)

(** ** C9: the events of one external command *)

(** C9.  An invocation of [run_cmd] with progress range [start], [finish]
    yields: one status event that announces the command, at [start]; then one
    log event per captured output line, in the order of the output, each at
    [start]; then, when the exit status is not 0, one error event that
    carries the status, and otherwise a stage-complete event at [finish] (when
    a stage name is given) followed by a status event "... finished" at
    [finish].  The command is launched once. *)
Theorem C9_run_cmd_event_sequence w cmd start finish stage_name :
  events (run_cmd w cmd start finish stage_name).1
  = [status_event ("Running: " +:+ Str.join " " cmd) start]
    ++ ((λ line, log_event (Str.strip line) start) <$> captured_lines (popen w cmd))
    ++ (if decide (exit_code w cmd = 0) then
          (if truthy stage_name then [colmap_stage_done stage_name finish] else [])
          ++ [status_event (format (py_or stage_name (SStr "command")) +:+ " finished")
                finish]
        else
          [error_event ("Command " +:+ Str.join " " cmd +:+ " exited with code "
                        +:+ str_of_Z (exit_code w cmd)) start])
  ∧ launched (run_cmd w cmd start finish stage_name).1 = [cmd].
Proof.
  split; [|apply launched_run_cmd].
  rewrite events_run_cmd. unfold closing_events, exit_code. simpl. do 2 f_equal.
  case_decide as Hrc.
  - by rewrite Hrc.
  - apply Z.eqb_neq in Hrc. by rewrite Hrc.
Qed.

(** ** C10: EXIF failures in [load_image] *)

(** The body of the [try] performs no action. *)
Lemma orient_image_trace c img : (preprocessing.orient_image c img).1 = [].
Proof.
  unfold preprocessing.orient_image, preprocessing.rotate. py_unfold.
  destruct (pil_getexif c img) as [[exif|]|e]; simpl; [|done..].
  unfold Py.ret. rewrite bind_continue. simpl.
  destruct (preprocessing.orientation_key _ _) as [key|]; [|done].
  repeat case_decide; try done;
    match goal with
    | |- context [pil_rotate c ?a img] => by destruct (pil_rotate c a img)
    end.
Qed.

(** C10.  When [Image.open] succeeds and reading or applying the EXIF
    orientation raises, [load_image] does not raise for that reason: it
    returns the conversion of the image as it was opened, not rotated, and
    raises only if that conversion itself raises. *)
Theorem C10_exif_failure_is_swallowed c path e :
  pil_open c path = None →
  (preprocessing.orient_image c (Opened path)).2 = Raise e →
  preprocessing.load_image c path
  = match cv_decode c (Opened path) with
    | None => ([], Continue (NpArray (Opened path) COLOR_RGB2BGR))
    | Some e' => ([], Raise e')
    end.
Proof.
  intros Hopen Hexif. unfold preprocessing.load_image. py_unfold.
  rewrite Hopen. simpl Py.check. unfold Py.ret. rewrite bind_continue.
  pose proof (orient_image_trace c (Opened path)) as Htrace.
  destruct (preprocessing.orient_image c (Opened path)) as [t o].
  simpl in Hexif, Htrace. subst o t.
  simpl Py.try_except. rewrite bind_continue.
  by destruct (cv_decode c (Opened path)).
Qed.

Lemma C10_witness :
  preprocessing.load_image png_codec "in/a.png"
  = ([], Continue (NpArray (Opened "in/a.png") COLOR_RGB2BGR)).
Proof.
  exact (C10_exif_failure_is_swallowed png_codec "in/a.png"
           "'PngImageFile' object has no attribute '_getexif'" eq_refl eq_refl).
Defined.

(** ** C8: the names of the stage outputs *)

(** C8.  The image stage pipeline writes, in this order and as far as it gets:
    the three colour stages under the original file name, with the extension
    replaced by [.jpg] when it is neither [.jpg] nor [.jpeg], and JPEG quality
    95; the edge, median and morphology stages, single-channel, under the stem
    of the name followed by the stage suffix and [.png], whatever the input
    extension, with no JPEG parameter; and the final colour stage like the
    first three.  When the pipeline ends without an exception all seven files
    have been handed to [cv2.imwrite]. *)
Theorem C8_stage_output_names c in_dir name out_root max_size :
  let m := preprocessing.preprocess_and_save_all_stages c in_dir name out_root max_size in
  let colour_name :=
    if Str.mem (Str.lower (Path.suffix name)) [".jpg"; ".jpeg"] then name
    else Path.stem name +:+ ".jpg" in
  let colour folder :=
    (Path.child (Path.child out_root folder) colour_name, 3%nat,
     [IMWRITE_JPEG_QUALITY; 95]) in
  let single folder tail :=
    (Path.child (Path.child out_root folder) (Path.stem name +:+ tail), 2%nat,
     @nil Z) in
  let outputs :=
    [ colour "histogram_equalized"; colour "gaussian_blur"; colour "sharpened";
      single "edges" "_edges.png"; single "median_filtered" "_median.png";
      single "morphology" "_morph.png"; colour "final_processed" ] in
  imwrites m.1 `prefix_of` outputs
  ∧ (m.2 = Continue tt → imwrites m.1 = outputs).
Proof.
  intros m colour_name colour single outputs.
  destruct (preprocess_writes c in_dir name out_root max_size)
    as (Hprefix & _ & _ & Hall).
  split; [exact Hprefix|exact (Hall tt)].
Qed.

Lemma C8_witness :
  imwrites (preprocessing.preprocess_and_save_all_stages
              plain_codec "in" "IMG_7.PNG" "out" 2048).1
  = [ ("out/histogram_equalized/IMG_7.jpg", 3%nat, [1; 95]);
      ("out/gaussian_blur/IMG_7.jpg", 3%nat, [1; 95]);
      ("out/sharpened/IMG_7.jpg", 3%nat, [1; 95]);
      ("out/edges/IMG_7_edges.png", 2%nat, []);
      ("out/median_filtered/IMG_7_median.png", 2%nat, []);
      ("out/morphology/IMG_7_morph.png", 2%nat, []);
      ("out/final_processed/IMG_7.jpg", 3%nat, [1; 95]) ].
Proof.
  exact (proj2 (C8_stage_output_names plain_codec "in" "IMG_7.PNG" "out" 2048) eq_refl).
Defined.

(** ** C6: the first image that fails *)







(** ** The end of a run *)

Lemma launched_feature_extraction w : launched (feature_extraction w) = [fe_cmd w].
Proof. apply launched_run_cmd. Qed.

Lemma launched_matching w : launched (matching w) = [em_cmd w].
Proof. apply launched_run_cmd. Qed.

Lemma launched_model_conversion w mi :
  launched (model_conversion w mi) = [converter_cmd w mi].
Proof. unfold model_conversion. simpl. apply launched_run_cmd. Qed.

Lemma launched_undistortion w mi : launched (undistortion w mi) = [undist_cmd w mi].
Proof. apply launched_run_cmd. Qed.

Lemma launched_yield ev : launched [Yield ev] = [].
Proof. reflexivity. Qed.

Lemma events_yield ev : events [Yield ev] = [ev].
Proof. reflexivity. Qed.

(** Compute the commands launched by a trace made of the parts of a run. *)
Ltac launched_simpl :=
  rewrite ?launched_app, ?launched_preprocessed, ?launched_mapped, ?launched_densified,
    ?launched_fusion, ?launched_images_trace, ?launched_feature_extraction,
    ?launched_matching, ?launched_model_conversion, ?launched_undistortion,
    ?launched_yield, ?app_nil_l, ?app_nil_r.

Lemma last_events_yield t ev : last (events (t ++ [Yield ev])) = Some ev.
Proof. by rewrite events_app, events_yield, last_snoc. Qed.

(** A command line differs from the command lines of the other tools. *)
Ltac other_tool H :=
  cbn [app] in H;
  repeat match type of H with
         | _ ∈ _ :: _ =>
             apply elem_of_cons in H as [H|H];
             [by apply (f_equal subcommand) in H|]
         end;
  by apply elem_of_nil in H.

(** Every run ends either with an error event, and then the generator has
    returned, or with the success event, and then the fusion command was
    launched, exited with 0 and left [fused.ply]. *)
Lemma run_ending w :
  (∃ ev, last (stream w) = Some ev ∧ ev !! "type" = Some (str "error")
         ∧ (fuse_cmd w ∈ commands w → exit_code w (fuse_cmd w) = 0 →
            fused_ply_exists w = false ∧ ev = fused_ply_missing))
  ∨ (last (stream w) = Some (reconstruction_complete w)
     ∧ fuse_cmd w ∈ commands w
     ∧ exit_code w (fuse_cmd w) = 0
     ∧ fused_ply_exists w = true).
Proof.
  unfold stream, commands, Py.trace.
  destruct (process_generator_shape w); cbn [fst snd].
  - left. eexists. split_and!; [done..|]. intros Hfuse. by apply elem_of_nil in Hfuse.
  - left. eexists. split_and!; [by rewrite !app_assoc, last_events_yield|done|].
    launched_simpl.
    rewrite (proj2 (image_result_quiet w name)). intros Hfuse. by apply elem_of_nil in Hfuse.
  - left. eexists. split_and!; [by rewrite last_events_yield|done|].
    launched_simpl. intros Hfuse. by apply elem_of_nil in Hfuse.
  - left. eexists. split_and!; [by apply last_events_app, last_events_failed|done|].
    launched_simpl. intros Hfuse. other_tool Hfuse.
  - left. eexists. split_and!.
    { rewrite app_assoc. by apply last_events_app, last_events_failed. }
    { done. }
    launched_simpl. intros Hfuse. other_tool Hfuse.
  - left. eexists. split_and!.
    { unfold mapped. rewrite !app_assoc. by apply last_events_app, last_events_failed. }
    { done. }
    launched_simpl. intros Hfuse. other_tool Hfuse.
  - left. eexists. split_and!; [by rewrite last_events_yield|done|].
    launched_simpl. intros Hfuse. other_tool Hfuse.
  - left. eexists. split_and!.
    { rewrite !app_assoc. by apply last_events_app, last_events_failed. }
    { done. }
    launched_simpl. intros Hfuse. other_tool Hfuse.
  - left. eexists. split_and!.
    { unfold densified. rewrite !app_assoc.
      by apply last_events_app, last_events_failed. }
    { done. }
    launched_simpl. intros Hfuse. other_tool Hfuse.
  - left. eexists. split_and!.
    { by apply last_events_app, last_events_failed. }
    { done. }
    done.
  - left. eexists. split_and!; [by rewrite !app_assoc, last_events_yield|done|done].
  - right. split_and!; [by rewrite !app_assoc, last_events_yield| |done..].
    launched_simpl. set_solver.
Qed.

(** ** C4: terminal success *)

(** C4.  A run ends with the success event ([type] "done") if and only if the
    fusion command was launched, exited with 0, and [dense/fused.ply] exists
    afterwards; when the fusion command exits with 0 and the file is absent
    the run ends with the error event "fused.ply not found after fusion". *)
Theorem C4_success_needs_exit_code_and_artifact w :
  ((∃ ev, last (stream w) = Some ev ∧ ev !! "type" = Some (str "done"))
   ↔ (fuse_cmd w ∈ commands w
      ∧ exit_code w (fuse_cmd w) = 0
      ∧ fused_ply_exists w = true))
  ∧ (fuse_cmd w ∈ commands w →
     exit_code w (fuse_cmd w) = 0 →
     fused_ply_exists w = false →
     last (stream w) = Some fused_ply_missing
     ∧ fused_ply_missing !! "type" = Some (str "error")).
Proof.
  destruct (run_ending w) as [(ev & Hlast & Herror & Hfuse)|(Hlast & Hin & Hrc & Hfused)].
  - split; [split|].
    + intros (ev' & Hlast' & Hdone). rewrite Hlast in Hlast'. simplify_eq.
    + intros (Hin & Hrc & Hfused). destruct (Hfuse Hin Hrc) as [Habsent _]. congruence.
    + intros Hin Hrc _. destruct (Hfuse Hin Hrc) as [_ ->]. by rewrite Hlast.
  - split; [split|].
    + done.
    + intros _. by eexists.
    + congruence.
Qed.

Lemma C4_witness :
  ∃ ev, last (stream sample_world) = Some ev ∧ ev !! "type" = Some (str "done").
Proof.
  apply (proj1 (C4_success_needs_exit_code_and_artifact sample_world)).
  split_and!; [|reflexivity..].
  apply (bool_decide_unpack _). vm_compute. reflexivity.
Defined.

(** ** C3: model discovery *)

Lemma first_dir_first_subdirectory entries :
  first_dir entries = first_subdirectory entries.
Proof.
  unfold first_subdirectory. rewrite <- first_dir_filter.
  by destruct (List.filter snd entries).
Qed.

(** Once the mapper has exited with 0 the model converter is launched on the
    discovered model, or the run ends for want of a model. *)
Lemma after_mapping w :
  map_cmd w ∈ commands w →
  exit_code w (map_cmd w) = 0 →
  match discovered w with
  | Some model_index => converter_cmd w model_index ∈ commands w
  | None =>
      last (stream w) = Some no_sparse_model
      ∧ commands w = [fe_cmd w; em_cmd w; map_cmd w]
  end.
Proof.
  unfold stream, commands, Py.trace.
  destruct (process_generator_shape w) as
    [ Hzero | l1 name l2 e Hpaths Hl1 Hfail | _ _ _
    | _ _ _ _ | _ _ _ _ _ | _ _ _ _ _ Hfails | _ _ _ _ _ _ Hmodel
    | mi _ _ _ _ _ _ Hmodel _ | mi _ _ _ _ _ _ Hmodel _ _
    | mi _ _ _ _ _ _ Hmodel _ _ _ | mi _ _ _ _ _ _ Hmodel _ _ _ _
    | mi _ _ _ _ _ _ Hmodel _ _ _ _ ];
    cbn [fst snd]; launched_simpl; intros Hmap Hrc.
  - by apply elem_of_nil in Hmap.
  - rewrite (proj2 (image_result_quiet w name)) in Hmap. by apply elem_of_nil in Hmap.
  - by apply elem_of_nil in Hmap.
  - other_tool Hmap.
  - other_tool Hmap.
  - done.
  - rewrite Hmodel. split; [by rewrite last_events_yield|done].
  - rewrite Hmodel. cbn [app]. rewrite !elem_of_cons. tauto.
  - rewrite Hmodel. cbn [app]. rewrite !elem_of_cons. tauto.
  - rewrite Hmodel. cbn [app]. rewrite !elem_of_cons. tauto.
  - rewrite Hmodel. cbn [app]. rewrite !elem_of_cons. tauto.
  - rewrite Hmodel. cbn [app]. rewrite !elem_of_cons. tauto.
Qed.

(** The converter is launched on the discovered model only. *)
Lemma converter_launched w model_index :
  converter_cmd w model_index ∈ commands w → discovered w = Some model_index.
Proof.
  unfold commands, Py.trace.
  destruct (process_generator_shape w) as
    [ Hzero | l1 name l2 e Hpaths Hl1 Hfail | _ _ _
    | _ _ _ _ | _ _ _ _ _ | _ _ _ _ _ _ | _ _ _ _ _ _ _
    | mi _ _ _ _ _ _ Hmodel _ | mi _ _ _ _ _ _ Hmodel _ _
    | mi _ _ _ _ _ _ Hmodel _ _ _ | mi _ _ _ _ _ _ Hmodel _ _ _ _
    | mi _ _ _ _ _ _ Hmodel _ _ _ _ ];
    cbn [fst snd]; launched_simpl; intros Hconv.
  1-7: try rewrite (proj2 (image_result_quiet w name)) in Hconv; other_tool Hconv.
  all: rewrite Hmodel; f_equal.
  all: cbn [app] in Hconv; rewrite !elem_of_cons, elem_of_nil in Hconv;
    destruct_or!; try (apply (f_equal subcommand) in Hconv; by cbn in Hconv);
    try done;
    unfold converter_cmd, Path.child in Hconv; by simplify_eq.
Qed.

(** A listing without a subdirectory has no directory at all. *)
Lemma first_dir_none entries e :
  first_dir entries = None → e ∈ entries → e.2 = false.
Proof.
  induction entries as [|x entries IH]; intros Hnone He.
  - by apply elem_of_nil in He.
  - simpl in Hnone. destruct x.2 eqn:Hx; [done|].
    apply elem_of_cons in He as [->|He]; [done|by apply IH].
Qed.

Lemma sparse_exists_entry w name :
  sparse_exists w name = true → ∃ is_dir, (name, is_dir) ∈ sparse_iterdir w.
Proof.
  unfold sparse_exists. rewrite existsb_exists.
  intros ([n d] & Hin%list_elem_of_In & Heq%String.eqb_eq). simpl in Heq. subst n.
  by exists d.
Qed.

(** C3 as it is stated fails on a root that holds ["1"] and ["2"] and lists
    ["2"] first: the converter is launched on ["2"]. *)
Lemma C3_counterexample : ¬ discovery_claim two_models_reversed_world.
Proof.
  intros Hclaim. destruct Hclaim as (Hone & _).
  - apply (bool_decide_unpack _). vm_compute. reflexivity.
  - reflexivity.
  - assert (converter_cmd two_models_reversed_world "1"
              ∈ commands two_models_reversed_world) as Hin.
    { apply Hone. apply Permutation_swap. }
    apply converter_launched in Hin. vm_compute in Hin. discriminate Hin.
Qed.

(** C3, amended.  After the sparse mapping has succeeded (the mapper was
    launched and exited with 0): the model converter is launched on the first
    subdirectory of [sparse_dir] in the order the directory is listed, and on
    no other path; the listing is not sorted, so for the subdirectories ["1"]
    and ["2"] it is launched on ["1"] when ["1"] is listed first and on ["2"]
    when ["2"] is listed first; with no subdirectory it is launched on the
    entry ["0"] when that exists, and that entry is then not a directory; and
    when that is absent too the run ends with the error event "No sparse
    model found after mapper" and no command is launched after the mapper. *)
Theorem C3_model_discovery w :
  map_cmd w ∈ commands w →
  exit_code w (map_cmd w) = 0 →
  (∀ sub, first_subdirectory (sparse_iterdir w) = Some sub →
          converter_cmd w sub ∈ commands w
          ∧ ∀ other, converter_cmd w other ∈ commands w → other = sub)
  ∧ (sparse_iterdir w = [("1", true); ("2", true)] →
     converter_cmd w "1" ∈ commands w)
  ∧ (sparse_iterdir w = [("2", true); ("1", true)] →
     converter_cmd w "2" ∈ commands w
     ∧ (converter_cmd w "1" ∉ commands w))
  ∧ (first_subdirectory (sparse_iterdir w) = None →
     sparse_exists w "0" = true →
     ("0", false) ∈ sparse_iterdir w
     ∧ (("0", true) ∉ sparse_iterdir w)
     ∧ converter_cmd w "0" ∈ commands w)
  ∧ (first_subdirectory (sparse_iterdir w) = None →
     sparse_exists w "0" = false →
     last (stream w) = Some no_sparse_model
     ∧ no_sparse_model !! "type" = Some (str "error")
     ∧ commands w = [fe_cmd w; em_cmd w; map_cmd w]).
Proof.
  intros Hmap Hrc. pose proof (after_mapping w Hmap Hrc) as Hafter.
  pose proof (converter_launched w) as Honly.
  unfold discovered in Hafter, Honly.
  rewrite first_dir_first_subdirectory in Hafter, Honly.
  split_and!.
  - intros sub Hsub. rewrite Hsub in Hafter, Honly. split; [done|].
    intros other Hother. apply Honly in Hother. by simplify_eq.
  - intros Hlist. rewrite Hlist in Hafter. exact Hafter.
  - intros Hlist. rewrite Hlist in Hafter, Honly. split; [exact Hafter|].
    intros Hone. apply Honly in Hone. discriminate Hone.
  - intros Hnone Hzero. rewrite Hnone, Hzero in Hafter.
    rewrite <- first_dir_first_subdirectory in Hnone.
    destruct (sparse_exists_entry w "0" Hzero) as [is_dir Hentry].
    pose proof (first_dir_none _ _ Hnone Hentry) as Hfile. simpl in Hfile. subst is_dir.
    split_and!; [done| |done].
    intros Hdir. by pose proof (first_dir_none _ _ Hnone Hdir).
  - intros Hnone Hzero. rewrite Hnone, Hzero in Hafter. by destruct Hafter.
Qed.

Lemma C3_witness :
  (["colmap"; "model_converter";
    "--input_path"; "/srv/app/runs/ab12cd34/out/sparse/2";
    "--output_path"; "/srv/app/runs/ab12cd34/out/sparse/0_txt";
    "--output_type"; "TXT"] ∈ commands two_models_reversed_world
   ∧ (converter_cmd two_models_reversed_world "1"
      ∉ commands two_models_reversed_world))
  ∧ (("0", false) ∈ sparse_iterdir file_zero_world
     ∧ (("0", true) ∉ sparse_iterdir file_zero_world)
     ∧ ["colmap"; "model_converter";
        "--input_path"; "/srv/app/runs/ab12cd34/out/sparse/0";
        "--output_path"; "/srv/app/runs/ab12cd34/out/sparse/0_txt";
        "--output_type"; "TXT"] ∈ commands file_zero_world)
  ∧ (last (stream no_model_world) = Some no_sparse_model
     ∧ no_sparse_model !! "type" = Some (str "error")
     ∧ commands no_model_world
       = [fe_cmd no_model_world; em_cmd no_model_world; map_cmd no_model_world]).
Proof.
  split; [|split].
  - refine (proj1 (proj2 (proj2 (C3_model_discovery two_models_reversed_world _ _)))
              eq_refl).
    + apply (bool_decide_unpack _). vm_compute. reflexivity.
    + reflexivity.
  - refine (proj1 (proj2 (proj2 (proj2
              (C3_model_discovery file_zero_world _ _)))) eq_refl eq_refl).
    + apply (bool_decide_unpack _). vm_compute. reflexivity.
    + reflexivity.
  - refine (proj2 (proj2 (proj2 (proj2
              (C3_model_discovery no_model_world _ _)))) eq_refl eq_refl).
    + apply (bool_decide_unpack _). vm_compute. reflexivity.
    + reflexivity.
Defined.
(** ** C5: the precondition on [final_processed] *)

Lemma C5_counterexample : ¬ precondition_claim empty_final_world.
Proof.
  intros Hclaim. destruct Hclaim as [Hcommands _]; [by right|].
  vm_compute in Hcommands. discriminate Hcommands.
Qed.

Lemma images_ok_forallb w :
  forallb (preprocesses w) (image_paths w) = true → images_ok w.
Proof.
  intros Hall name Hname. rewrite forallb_forall in Hall.
  by apply Hall, list_elem_of_In.
Qed.

(** C5, amended.  When every image preprocesses, the generator checks, before
    any command, that the [final_processed] directory exists: when it is
    absent the run ends with the error event "final_processed folder
    missing" and no command is launched; when it exists, empty or not, the
    feature extractor is launched. *)
Theorem C5_final_processed_must_exist w :
  total_images w ≠ 0%nat →
  forallb (preprocesses w) (image_paths w) = true →
  (listdir w (image_path_for_colmap w) = None →
   last (stream w) = Some final_processed_missing
   ∧ final_processed_missing !! "type" = Some (str "error")
   ∧ commands w = [])
  ∧ (∀ entries, listdir w (image_path_for_colmap w) = Some entries →
     head (commands w) = Some (fe_cmd w)).
Proof.
  intros Htotal Hok%images_ok_forallb.
  unfold stream, commands, Py.trace.
  destruct (process_generator_shape w) as
    [ Hzero | l1 name l2 e Hpaths Hl1 Hfail | _ _ Hfinal
    | _ _ Hfinal | _ _ Hfinal | _ _ Hfinal | _ _ Hfinal | mi _ _ Hfinal
    | mi _ _ Hfinal | mi _ _ Hfinal | mi _ _ Hfinal | mi _ _ Hfinal ];
    cbn [fst snd]; [done| |..].
  { assert (preprocesses w name = true) as Hname.
    { apply Hok. rewrite Hpaths. set_solver. }
    unfold preprocesses in Hname. by rewrite Hfail in Hname. }
  all: unfold dir_exists in Hfinal;
    first [apply bool_decide_eq_false in Hfinal | apply bool_decide_eq_true in Hfinal].
  all: launched_simpl.
  { split.
    - intros _. by rewrite last_events_yield.
    - intros entries Hentries. rewrite Hentries in Hfinal. by destruct Hfinal. }
  all: split; [intros Hnone; rewrite Hnone in Hfinal; by destruct Hfinal|done].
Qed.

Lemma C5_witness :
  last (stream missing_final_world) = Some final_processed_missing
  ∧ final_processed_missing !! "type" = Some (str "error")
  ∧ commands missing_final_world = [].
Proof.
  refine (proj1 (C5_final_processed_must_exist missing_final_world _ eq_refl) eq_refl).
  vm_compute. discriminate.
Defined.


(** ** A failing model converter *)

Lemma model_conversion_error w model_index :
  exit_code w (converter_cmd w model_index) ≠ 0 →
  error_event ("Command " +:+ Str.join " " (converter_cmd w model_index)
               +:+ " exited with code "
               +:+ str_of_Z (exit_code w (converter_cmd w model_index)))
    (SStr "model_converter") ∈ events (model_conversion w model_index).
Proof.
  intros Hrc%Z.eqb_neq. unfold model_conversion, exit_code in *.
  change (events (Mkdir ?p :: ?t)) with (events t).
  rewrite events_run_cmd. unfold closing_events. rewrite Hrc.
  rewrite elem_of_cons, elem_of_app, !elem_of_cons. tauto.
Qed.

(** Whenever the model converter is launched and exits with a status other
    than 0, its error event is in the stream and the undistortion is launched
    all the same. *)
Lemma converter_failure_goes_on w model_index :
  converter_cmd w model_index ∈ commands w →
  exit_code w (converter_cmd w model_index) ≠ 0 →
  error_event ("Command " +:+ Str.join " " (converter_cmd w model_index)
               +:+ " exited with code "
               +:+ str_of_Z (exit_code w (converter_cmd w model_index)))
    (SStr "model_converter") ∈ stream w
  ∧ undist_cmd w model_index ∈ commands w.
Proof.
  intros Hconv Hrc. pose proof (model_conversion_error w model_index Hrc) as Herr.
  revert Hconv. unfold stream, commands, Py.trace.
  destruct (process_generator_shape w) as
    [ Hzero | l1 name l2 e Hpaths Hl1 Hfail | _ _ _
    | _ _ _ _ | _ _ _ _ _ | _ _ _ _ _ _ | _ _ _ _ _ _ _
    | mi _ _ _ _ _ _ _ _ | mi _ _ _ _ _ _ _ _ _
    | mi _ _ _ _ _ _ _ _ _ _ | mi _ _ _ _ _ _ _ _ _ _ _
    | mi _ _ _ _ _ _ _ _ _ _ _ ];
    cbn [fst snd]; launched_simpl; intros Hconv.
  1-7: try rewrite (proj2 (image_result_quiet w name)) in Hconv; other_tool Hconv.
  all: assert (model_index = mi) as <-.
  all: try (cbn [app] in Hconv; rewrite !elem_of_cons, elem_of_nil in Hconv;
            destruct_or!; try (apply (f_equal subcommand) in Hconv; by cbn in Hconv);
            try done;
            unfold converter_cmd, Path.child in Hconv; by simplify_eq).
  all: split; [unfold densified; rewrite ?events_app, ?elem_of_app; tauto
              |cbn [app]; rewrite !elem_of_cons; tauto].
Qed.

(** ** C1: terminal events *)

(** C1, on a run in which the model converter exits with 1.  The stream has 42
    events; the 29th is the error event of the converter, whose progress is
    the string "model_converter"; it is the only error event, it is followed
    by the status event that announces the undistortion, and the stream ends
    with the success event. *)
Theorem C1_converter_error_is_not_terminal :
  let s := stream converter_fails_world in
  let failed :=
    error_event
      ("Command colmap model_converter " +:+
       "--input_path /srv/app/runs/ab12cd34/out/sparse/0 " +:+
       "--output_path /srv/app/runs/ab12cd34/out/sparse/0_txt " +:+
       "--output_type TXT exited with code 1")
      (SStr "model_converter") in
  length s = 42%nat
  ∧ s !! 28%nat = Some failed
  ∧ of_type "error" s = [failed]
  ∧ s !! 29%nat
    = Some (status_event
              ("Running: " +:+
               Str.join " " (undist_cmd converter_fails_world "0")) (SInt 58))
  ∧ last s = Some (reconstruction_complete converter_fails_world).
Proof. vm_compute. repeat split. Qed.

(** ** C7: the per-image event *)

(** C7, on a run with one PNG image.  The per-image event refers to
    [final_processed/a.png], which the route resolves to a file of that name,
    while the final stage was written to [final_processed/a.jpg]: no file
    written by the run has the name the event refers to.  The progress of the
    event is [2 + 18 * 1 / 1 = 20]. *)
Theorem C7_png_reference_is_not_the_written_file :
  let w := png_world in
  stream w !! 2%nat = Some (preprocess_event w 1 "a.png")
  ∧ preprocess_event w 1 "a.png" !! "image"
    = Some (str "/runs/ab12cd34/out/final_processed/a.png")
  ∧ preprocess_event w 1 "a.png" !! "progress" = Some (int 20)
  ∧ serve_run_out w "ab12cd34" "final_processed/a.png"
    = "/srv/app/runs/ab12cd34/out/final_processed/a.png"
  ∧ written (process_generator w).1
    = [ "/srv/app/runs/ab12cd34/out/histogram_equalized/a.jpg";
        "/srv/app/runs/ab12cd34/out/gaussian_blur/a.jpg";
        "/srv/app/runs/ab12cd34/out/sharpened/a.jpg";
        "/srv/app/runs/ab12cd34/out/edges/a_edges.png";
        "/srv/app/runs/ab12cd34/out/median_filtered/a_median.png";
        "/srv/app/runs/ab12cd34/out/morphology/a_morph.png";
        "/srv/app/runs/ab12cd34/out/final_processed/a.jpg" ]
  ∧ serve_run_out w "ab12cd34" "final_processed/a.png"
    ∉ written (process_generator w).1.
Proof.
  split_and!; [by vm_compute..|].
  apply (bool_decide_unpack _). by vm_compute.
Qed.

(** ** C2: progress values *)

Lemma C2_counterexample : ¬ progress_claim (stream corrupt_world).
Proof.
  intros [_ Hmono].
  specialize (Hmono 2%nat (preprocess_event corrupt_world 1 "a.jpg")
                (preprocessing_failed "cannot identify image file") 8 0).
  assert (8 ≤ 0) as Habsurd by (apply Hmono; by vm_compute).
  lia.
Qed.

Lemma progress_values_app s1 s2 :
  progress_values (s1 ++ s2) = progress_values s1 ++ progress_values s2.
Proof. unfold progress_values. by rewrite List.filter_app, omap_app. Qed.

Lemma mono_app lo mid hi s1 s2 :
  mono lo mid s1 → mono mid hi s2 → mono lo hi (s1 ++ s2).
Proof.
  intros (Hle1 & Hsorted1 & Hin1 & Hall1) (Hle2 & Hsorted2 & Hin2 & Hall2).
  unfold mono. rewrite progress_values_app. split_and!.
  - lia.
  - apply StronglySorted_app. split_and!; [|done..].
    intros z1 z2 Hz1 Hz2.
    pose proof (proj1 (Forall_forall _ _) Hin1 z1 Hz1).
    pose proof (proj1 (Forall_forall _ _) Hin2 z2 Hz2). simpl in *. lia.
  - apply Forall_app. split.
    + eapply Forall_impl; [exact Hin1|]. simpl. lia.
    + eapply Forall_impl; [exact Hin2|]. simpl. lia.
  - by apply Forall_app.
Qed.

Lemma mono_weaken lo hi lo' hi' s :
  mono lo hi s → lo' ≤ lo → hi ≤ hi' → mono lo' hi' s.
Proof.
  intros (Hle & Hsorted & Hin & Hall) Hlo Hhi. split_and!; [lia|done| |done].
  eapply Forall_impl; [exact Hin|]. simpl. lia.
Qed.

Lemma mono_nil lo hi : lo ≤ hi → mono lo hi [].
Proof. intros Hle. split_and!; [done|constructor..]. Qed.

Lemma progress_values_singleton ev :
  progress_values [ev]
  = if reset_error ev then [] else from_option (λ z, [z]) [] (numeric_progress ev).
Proof.
  unfold progress_values. simpl. destruct (reset_error ev); simpl; [done|].
  by destruct (numeric_progress ev).
Qed.

(** One event whose progress is the number [z]. *)
Lemma mono_number lo hi ev z :
  numeric_progress ev = Some z → lo ≤ z ≤ hi → 0 ≤ z ≤ 100 → mono lo hi [ev].
Proof.
  intros Hz Hrange Hpercent. unfold mono. rewrite progress_values_singleton, Hz.
  split_and!; [lia|..].
  - destruct (reset_error ev); simpl; repeat constructor.
  - destruct (reset_error ev); simpl; [constructor|].
    constructor; [done|constructor].
  - constructor; [|constructor]. intros z' Hz'. by simplify_eq.
Qed.

(** One event whose progress is not a number. *)
Lemma mono_no_number lo hi ev :
  numeric_progress ev = None → lo ≤ hi → mono lo hi [ev].
Proof.
  intros Hz Hle. unfold mono. rewrite progress_values_singleton, Hz.
  split_and!; [lia|..].
  - destruct (reset_error ev); simpl; constructor.
  - destruct (reset_error ev); simpl; constructor.
  - constructor; [|constructor]. intros z' Hz'. by simplify_eq.
Qed.

(** One error event at progress 0. *)
Lemma mono_reset lo hi message :
  lo ≤ hi → mono lo hi [error_event message (SInt 0)].
Proof.
  intros Hle. split_and!; [lia|by constructor|by constructor|].
  constructor; [|constructor]. intros z Hz.
  change (Some 0 = Some z) in Hz. simplify_eq. lia.
Qed.

(** A list of events that all sit at the same progress. *)
Lemma mono_map {A} b (f : A → event) (l : list A) :
  (∀ x, x ∈ l → mono b b [f x]) → mono b b (f <$> l).
Proof.
  intros Hf. induction l as [|x l IH].
  - by apply mono_nil.
  - rewrite fmap_cons. change (f x :: (f <$> l)) with ([f x] ++ (f <$> l)).
    apply mono_app with (mid := b).
    + apply Hf. by left.
    + apply IH. intros y Hy. apply Hf. by right.
Qed.

Lemma mono_cons lo mid hi ev s :
  mono lo mid [ev] → mono mid hi s → mono lo hi (ev :: s).
Proof. apply (mono_app lo mid hi [ev] s). Qed.

(** The events of a command whose range is a pair of numbers. *)
Lemma mono_run_cmd w cmd a b nm :
  0 ≤ a → a ≤ b → b ≤ 100 →
  mono a b (events (run_cmd w cmd (SInt a) (SInt b) nm).1).
Proof.
  intros Ha Hab Hb. rewrite events_run_cmd.
  apply mono_cons with (mid := a); [by apply (mono_number _ _ _ a); [|lia..]|].
  apply mono_app with (mid := a).
  - apply mono_map. intros line _.
    by apply (mono_number _ _ _ a); [|lia..].
  - unfold closing_events. destruct (_ =? 0).
    + apply mono_app with (mid := b).
      * destruct (truthy nm); [|by apply mono_nil].
        by apply (mono_number _ _ _ b); [|lia..].
      * by apply (mono_number _ _ _ b); [|lia..].
    + by apply (mono_number _ _ _ a); [|lia..].
Qed.

(** The events of the model converter: those that carry a number are at 55. *)
Lemma mono_model_conversion w model_index :
  mono 55 55 (events (model_conversion w model_index)).
Proof.
  unfold model_conversion.
  change (events (Mkdir ?p :: ?t)) with (events t).
  rewrite events_run_cmd.
  apply mono_cons with (mid := 55); [by apply mono_no_number|].
  apply mono_app with (mid := 55).
  - apply mono_map. intros line _. by apply mono_no_number.
  - unfold closing_events. destruct (_ =? 0).
    + apply mono_app with (mid := 55); by apply (mono_number _ _ _ 55).
    + by apply mono_no_number.
Qed.

Lemma mono_thumbnails w : mono 20 20 (events (stage_thumbnails w).1).
Proof.
  rewrite events_thumbnails. apply mono_map. intros stage _.
  by apply (mono_number _ _ _ 20).
Qed.

Lemma preprocess_progress_mono i j n :
  (i ≤ j)%nat → preprocess_progress i n ≤ preprocess_progress j n.
Proof.
  intros Hij. unfold preprocess_progress.
  destruct (decide (n = 0%nat)) as [->|Hn].
  - simpl. by rewrite !Z.div_0_r.
  - apply Z.add_le_mono_l, Z.div_le_mono; lia.
Qed.

Lemma preprocess_progress_range i n :
  (i ≤ n)%nat → 2 ≤ preprocess_progress i n ≤ 20.
Proof.
  intros Hin. unfold preprocess_progress.
  destruct (decide (n = 0%nat)) as [->|Hn].
  - simpl. rewrite Z.div_0_r. lia.
  - assert (0 ≤ 18 * Z.of_nat i / Z.of_nat n) by (apply Z.div_pos; lia).
    assert (18 * Z.of_nat i / Z.of_nat n ≤ 18).
    { apply Z.div_le_upper_bound; lia. }
    lia.
Qed.

Lemma progress_values_preprocess_events w (l : list (nat * string)) :
  progress_values ((λ p, preprocess_event w p.1 p.2) <$> l)
  = (λ p, preprocess_progress p.1 (total_images w)) <$> l.
Proof.
  induction l as [|p l IH]; [done|].
  rewrite !fmap_cons.
  change (?ev :: ?s) with ([ev] ++ s) at 1.
  rewrite progress_values_app, IH. done.
Qed.

Lemma enumerate_indices {A} start (l : list A) p :
  p ∈ enumerate start l → (start ≤ p.1 < start + length l)%nat.
Proof.
  revert start. induction l as [|x l IH]; intros start; simpl.
  - by rewrite elem_of_nil.
  - rewrite elem_of_cons. intros [->|Hp]; simpl; [lia|].
    specialize (IH _ Hp). lia.
Qed.

(** The per-image events: progress grows with the index and stays in 2..20. *)
Lemma mono_images w start l :
  (start + length l ≤ S (total_images w))%nat →
  mono 2 20 (events (images_trace w start l)).
Proof.
  intros Hlen. rewrite events_images_trace. unfold mono.
  rewrite progress_values_preprocess_events. split_and!; [lia|..].
  - clear Hlen. revert start. induction l as [|x l IH]; intros start; simpl.
    + constructor.
    + constructor; [apply IH|].
      apply Forall_fmap, Forall_forall. intros p Hp%enumerate_indices. simpl.
      apply preprocess_progress_mono. lia.
  - apply Forall_fmap, Forall_forall. intros p Hp%enumerate_indices. simpl.
    apply preprocess_progress_range. lia.
  - apply Forall_fmap, Forall_forall. intros p Hp%enumerate_indices z Hz. simpl in *.
    change (Some (preprocess_progress p.1 (total_images w)) = Some z) in Hz.
    simplify_eq. pose proof (preprocess_progress_range p.1 (total_images w)). lia.
Qed.

Lemma mono_preprocessed w : mono 0 22 (events (preprocessed w)).
Proof.
  unfold preprocessed. rewrite !events_app, !events_yield.
  rewrite (proj1 (reset_workspace_quiet w)), app_nil_r.
  apply mono_cons with (mid := 0); [by apply (mono_number _ _ _ 0)|].
  apply mono_cons with (mid := 2); [by apply (mono_number _ _ _ 2)|].
  apply mono_app with (mid := 20); [apply mono_images; unfold total_images; lia|].
  apply mono_cons with (mid := 20); [by apply (mono_number _ _ _ 20)|].
  apply mono_app with (mid := 20); [apply mono_thumbnails|].
  by apply (mono_number _ _ _ 22).
Qed.

Lemma mono_mapped w : mono 0 55 (events (mapped w)).
Proof.
  unfold mapped, feature_extraction, matching, sparse_mapping. rewrite !events_app.
  apply mono_app with (mid := 22); [apply mono_preprocessed|].
  apply mono_app with (mid := 30); [by apply mono_run_cmd|].
  apply mono_app with (mid := 40); by apply mono_run_cmd.
Qed.

Lemma mono_densified w model_index : mono 0 85 (events (densified w model_index)).
Proof.
  unfold densified, undistortion, dense_stereo. rewrite !events_app.
  apply mono_app with (mid := 55); [apply mono_mapped|].
  apply mono_app with (mid := 55); [apply mono_model_conversion|].
  apply mono_app with (mid := 65).
  - apply mono_weaken with 58 65; [by apply mono_run_cmd|lia..].
  - by apply mono_run_cmd.
Qed.

Lemma mono_fusion w : mono 85 95 (events (fusion w)).
Proof. by apply mono_run_cmd. Qed.

(** C2, amended.  In every run, every progress value that is a number lies
    between 0 and 100, and the numeric progress values are non-decreasing
    along the stream once the error events that carry progress 0 ("No images
    found", "Preprocessing failed: ...", "final_processed folder missing")
    are set aside. *)
Theorem C2_progress_is_monotone_up_to_error_reset w :
  StronglySorted Z.le (progress_values (stream w))
  ∧ Forall (λ ev, ∀ z, numeric_progress ev = Some z → 0 ≤ z ≤ 100) (stream w).
Proof.
  cut (mono 0 100 (stream w)).
  { intros (_ & Hsorted & _ & Hall). done. }
  unfold stream, Py.trace.
  destruct (process_generator_shape w) as
    [ Hzero | l1 name l2 e Hpaths Hl1 Hfail | _ _ _
    | _ _ _ _ | _ _ _ _ _ | _ _ _ _ _ _ | _ _ _ _ _ _ _
    | mi _ _ _ _ _ _ _ _ | mi _ _ _ _ _ _ _ _ _
    | mi _ _ _ _ _ _ _ _ _ _ | mi _ _ _ _ _ _ _ _ _ _ _
    | mi _ _ _ _ _ _ _ _ _ _ _ ];
    cbn [fst snd]; rewrite ?events_app, ?events_yield.
  - apply mono_cons with (mid := 0); [by apply (mono_number _ _ _ 0)|].
    apply mono_cons with (mid := 2); [by apply (mono_number _ _ _ 2)|].
    by apply mono_reset.
  - rewrite (proj1 (image_result_quiet w name)), app_nil_l.
    apply mono_cons with (mid := 0); [by apply (mono_number _ _ _ 0)|].
    apply mono_cons with (mid := 2); [by apply (mono_number _ _ _ 2)|].
    apply mono_app with (mid := 20); [|by apply mono_reset].
    apply mono_images. unfold total_images. rewrite Hpaths, length_app. simpl. lia.
  - apply mono_app with (mid := 22); [apply mono_preprocessed|by apply mono_reset].
  - apply mono_app with (mid := 22); [apply mono_preprocessed|].
    apply mono_weaken with 22 30; [by apply mono_run_cmd|lia..].
  - apply mono_app with (mid := 22); [apply mono_preprocessed|].
    apply mono_app with (mid := 30); [by apply mono_run_cmd|].
    apply mono_weaken with 30 40; [by apply mono_run_cmd|lia..].
  - apply mono_weaken with 0 55; [apply mono_mapped|lia..].
  - apply mono_app with (mid := 55); [apply mono_mapped|].
    by apply (mono_number _ _ _ 55).
  - apply mono_app with (mid := 55); [apply mono_mapped|].
    apply mono_app with (mid := 55); [apply mono_model_conversion|].
    apply mono_weaken with 58 65; [by apply mono_run_cmd|lia..].
  - apply mono_weaken with 0 85; [apply mono_densified|lia..].
  - apply mono_app with (mid := 85); [apply mono_densified|].
    apply mono_weaken with 85 95; [apply mono_fusion|lia..].
  - apply mono_app with (mid := 85); [apply mono_densified|].
    apply mono_app with (mid := 95); [apply mono_fusion|].
    by apply (mono_number _ _ _ 95).
  - apply mono_app with (mid := 85); [apply mono_densified|].
    apply mono_app with (mid := 95); [apply mono_fusion|].
    by apply (mono_number _ _ _ 100).
Qed.

